(** * Build_Product.py: a shallow embedding and its verified properties

    The script scans a UPC barcode, asks a completion service for seven
    lines of product metadata, estimates a price from sold listings, mints
    a SKU from a counter file and posts a product to an inventory API.

    Conventions of the embedding.
    - Python [str] values are [string]s; a character is a code point below
      256.  Python [int] is [Z]; Python [float] is the primitive binary64
      [float], whose operations round to nearest-even as the interpreter's do.
    - The interpreter's configurable limit on the number of digits of an
      integer conversion is not modelled: [int] and [str] are total on
      arbitrarily long numerals.
    - Everything outside the script (the counter file, the clock, the three
      web services, the camera and the barcode decoder) is an explicit input:
      a [world] that the functions thread through, and an [env] of oracles.
    - Exceptions are values of [exn]; a function that can raise returns
      [exn + A]. *)

From Stdlib Require Import ZArith List String Ascii Lia Bool.
From Stdlib Require Import DecimalString DecimalPos.
From Stdlib Require Import PrimFloat SpecFloat FloatOps FloatAxioms.
Import ListNotations.

Local Open Scope string_scope.
Local Open Scope Z_scope.

(** ** Python exceptions raised by the script *)

Inductive exn : Type :=
| FileNotFoundError     (* open() of a missing file *)
| ValueError            (* int() or float() of a malformed string *)
| TypeError             (* float(None) *)
| AttributeError        (* None.text *)
| IndexError            (* list index out of range *)
| XMLParseError         (* xml.etree.ElementTree.ParseError *)
| UnicodeDecodeError.   (* bytes.decode *)

Definition result (A : Type) : Type := (exn + A)%type.

Abbreviation Ok := (@inr exn _).
Abbreviation Raise := (@inl exn _).

(** ** Built-in string operations *)

Module PyStr.

Definition code (c : ascii) : N := N_of_ascii c.

(** [str.isspace] on code points below 256, the class [str.strip] removes. *)
Definition isspace (c : ascii) : bool :=
  let n := code c in
  ((9 <=? n) && (n <=? 13) || (28 <=? n) && (n <=? 32)
   || (n =? 133) || (n =? 160))%N.

(** The narrower class the numeric parsers skip: the C-locale white space,
    and the two non-ASCII spaces, which the conversion to an ASCII buffer
    turns into a blank. *)
Definition isspace_numeric (c : ascii) : bool :=
  let n := code c in
  ((9 <=? n) && (n <=? 13) || (n =? 32) || (n =? 133) || (n =? 160))%N.

Definition isdigit (c : ascii) : bool :=
  let n := code c in ((48 <=? n) && (n <=? 57))%N.

Definition digit_value (c : ascii) : Z := Z.of_N (code c) - 48.

Definition is_empty (s : string) : bool :=
  match s with EmptyString => true | String _ _ => false end.

Fixpoint lstrip_by (sp : ascii -> bool) (s : string) : string :=
  match s with
  | EmptyString => EmptyString
  | String c s' => if sp c then lstrip_by sp s' else s
  end.

Fixpoint rstrip_by (sp : ascii -> bool) (s : string) : string :=
  match s with
  | EmptyString => EmptyString
  | String c s' =>
      let r := rstrip_by sp s' in
      if is_empty r && sp c then EmptyString else String c r
  end.

(** [s.strip()] *)
Definition strip (s : string) : string := rstrip_by isspace (lstrip_by isspace s).

(** [s.split(sep)] for a one-character separator: never the empty list. *)
Fixpoint split (sep : ascii) (s : string) : list string :=
  match s with
  | EmptyString => [EmptyString]
  | String c s' =>
      if Ascii.eqb c sep then EmptyString :: split sep s'
      else match split sep s' with
           | h :: t => String c h :: t
           | [] => [String c EmptyString]
           end
  end.

Fixpoint contains (c : ascii) (s : string) : bool :=
  match s with
  | EmptyString => false
  | String d s' => Ascii.eqb c d || contains c s'
  end.

(** Every character of [s] satisfies [P]. *)
Fixpoint all_chars (P : ascii -> bool) (s : string) : bool :=
  match s with
  | EmptyString => true
  | String c s' => P c && all_chars P s'
  end.

Fixpoint repeat_char (c : ascii) (n : nat) : string :=
  match n with O => EmptyString | S k => String c (repeat_char c k) end.

End PyStr.

(** ** Built-in integer conversions *)

Module PyInt.
Import PyStr.

(** The digit run of an integer literal: digits, with single underscores
    allowed between digits.  [prev] tells whether the previous character
    was a digit ([true]) or an underscore ([false]); the result is the
    accumulated value and the unread rest.  The caller checks that the run
    does not start with an underscore. *)
Fixpoint digits (acc : Z) (prev : bool) (s : string) : option (Z * string) :=
  match s with
  | EmptyString => if prev then Some (acc, s) else None
  | String c s' =>
      if isdigit c then digits (10 * acc + digit_value c) true s'
      else if Ascii.eqb c "_" then
             (if prev then digits acc false s' else None)
      else if prev then Some (acc, s) else None
  end.

Definition sign_and_rest (s : string) : bool * string :=
  match s with
  | String "+" r => (false, r)
  | String "-" r => (true, r)
  | _ => (false, s)
  end.

(** [int(s)] for a string [s], base ten. *)
Definition int (s : string) : result Z :=
  let s1 := lstrip_by isspace_numeric s in
  let '(neg, s2) := sign_and_rest s1 in
  match s2 with
  | String c _ =>
      if isdigit c then
        match digits 0 true s2 with
        | Some (v, rest) =>
            if is_empty (lstrip_by isspace_numeric rest)
            then Ok (if neg then - v else v)
            else Raise ValueError
        | None => Raise ValueError
        end
      else Raise ValueError
  | EmptyString => Raise ValueError
  end.

(** [str(n)] for an integer [n]. *)
Definition str (n : Z) : string := NilEmpty.string_of_int (Z.to_int n).

(** [format(n, '03')]: the zero flag pads after the sign, and the sign
    counts for the width. *)
Definition format_03 (n : Z) : string :=
  let sign := if n <? 0 then "-" else "" in
  let body := str (Z.abs n) in
  sign ++ repeat_char "0" (3 - String.length sign - String.length body)%nat ++ body.

End PyInt.

(** ** [datetime.now().strftime('%y%m%d')] *)

Record datetime : Type := { year : Z; month : Z; day : Z }.

Module PyDate.

(** A field of [strftime] printed on two columns with leading zeros. *)
Definition two_digits (n : Z) : string :=
  let body := PyInt.str n in
  PyStr.repeat_char "0" (2 - String.length body)%nat ++ body.

Definition strftime_ymd (d : datetime) : string :=
  two_digits (year d mod 100) ++ two_digits (month d) ++ two_digits (day d).

End PyDate.

(** ** Built-in float conversions *)

Module PyFloat.
Import PyStr.

(** [float(n)] for an integer [n], rounded to nearest-even.  (Python raises
    [OverflowError] beyond the range of binary64; the script converts only
    the number of listings and the constant 2.) *)
Definition of_int (n : Z) : float :=
  SF2Prim (binary_normalize prec emax n 0 false).

(** The binary64 value nearest to [(-1)^neg * m * 10^e], for [0 <= m]. *)
Definition of_decimal (neg : bool) (m e : Z) : float :=
  match m with
  | Zpos p =>
      if 0 <=? e then
        SF2Prim (binary_normalize prec emax
                   ((if neg then Zneg p else Zpos p) * 10 ^ e) 0 false)
      else
        match 10 ^ (- e) with
        | Zpos q =>
            SF2Prim (SFdiv prec emax (S754_finite neg p 0) (S754_finite false q 0))
        | _ => nan
        end
  | _ => if neg then neg_zero else zero
  end.

(** Underscores are dropped from a literal, each one having to stand
    between two digits; [prev] is the character before [s]. *)
Fixpoint drop_underscores (prev : option ascii) (s : string) : option string :=
  match s with
  | EmptyString =>
      match prev with
      | Some "_"%char => None
      | _ => Some EmptyString
      end
  | String c s' =>
      if Ascii.eqb c "_" then
        match prev with
        | Some p => if isdigit p then drop_underscores (Some c) s' else None
        | None => None
        end
      else
        match prev with
        | Some "_"%char =>
            if isdigit c then option_map (String c) (drop_underscores (Some c) s')
            else None
        | _ => option_map (String c) (drop_underscores (Some c) s')
        end
  end.

(** A maximal run of digits: the value accumulated on [acc], the number of
    digits read, and the rest. *)
Fixpoint digit_run (acc count : Z) (s : string) : Z * Z * string :=
  match s with
  | String c s' =>
      if isdigit c then digit_run (10 * acc + digit_value c) (count + 1) s'
      else (acc, count, s)
  | EmptyString => (acc, count, s)
  end.

Definition is_exponent_mark (c : ascii) : bool :=
  Ascii.eqb c "e" || Ascii.eqb c "E".

(** A decimal literal: [sign] digits [. digits] [e [sign] digits], with a
    digit at least in the mantissa, read to the end of the string. *)
Definition number (s : string) : option float :=
  let '(neg, s1) := PyInt.sign_and_rest s in
  let '(m1, n1, s2) := digit_run 0 0 s1 in
  let '(m2, n2, s3) :=
    match s2 with
    | String "." r => digit_run m1 0 r
    | _ => (m1, 0, s2)
    end in
  if n1 + n2 =? 0 then None
  else
    match s3 with
    | EmptyString => Some (of_decimal neg m2 (- n2))
    | String c r =>
        if is_exponent_mark c then
          let '(eneg, r1) := PyInt.sign_and_rest r in
          let '(ev, en, r2) := digit_run 0 0 r1 in
          if (0 <? en) && is_empty r2
          then Some (of_decimal neg m2 ((if eneg then - ev else ev) - n2))
          else None
        else None
    end.

Definition lower (c : ascii) : ascii :=
  let n := code c in
  if ((65 <=? n) && (n <=? 90))%N then ascii_of_N (n + 32) else c.

Fixpoint lowercase (s : string) : string :=
  match s with
  | EmptyString => EmptyString
  | String c s' => String (lower c) (lowercase s')
  end.

(** [sign] inf | infinity | nan, in any letter case. *)
Definition inf_or_nan (s : string) : option float :=
  let '(neg, s1) := PyInt.sign_and_rest s in
  let w := lowercase s1 in
  if String.eqb w "inf" || String.eqb w "infinity"
  then Some (if neg then neg_infinity else infinity)
  else if String.eqb w "nan" then Some nan
  else None.

(** [float(s)] for a string [s]. *)
Definition float_of_str (s : string) : result float :=
  let s1 := rstrip_by isspace_numeric (lstrip_by isspace_numeric s) in
  match drop_underscores None s1 with
  | None => Raise ValueError
  | Some s2 =>
      match number s2 with
      | Some x => Ok x
      | None =>
          match inf_or_nan s2 with
          | Some x => Ok x
          | None => Raise ValueError
          end
      end
  end.

(** [float(x)] where [x] is the [text] attribute of an element: a string,
    or [None]. *)
Definition float_of_text (x : option string) : result float :=
  match x with
  | Some s => float_of_str s
  | None => Raise TypeError
  end.

End PyFloat.

(** ** [xml.etree.ElementTree] *)

Module ET.

#[warnings="-register-all"]
Inductive element : Type :=
| Element (tag : string) (text : option string) (children : list element).

Definition tag_of (e : element) : string :=
  match e with Element t _ _ => t end.
Definition text_of (e : element) : option string :=
  match e with Element _ x _ => x end.
Definition children_of (e : element) : list element :=
  match e with Element _ _ cs => cs end.

(** The element and all its descendants, in document order. *)
Fixpoint walk (e : element) : list element :=
  match e with
  | Element _ _ cs =>
      e :: (fix walk_all (l : list element) : list element :=
              match l with
              | [] => []
              | c :: l' => (walk c ++ walk_all l')%list
              end) cs
  end.

(** [root.iter(tag)] *)
Definition iter (tag : string) (root : element) : list element :=
  filter (fun e => String.eqb (tag_of e) tag) (walk root).

(** One step of a path: the children carrying [tag] of every element of
    [context], in order. *)
Definition select_child (tag : string) (context : list element) : list element :=
  flat_map (fun e => filter (fun c => String.eqb (tag_of c) tag) (children_of e))
           context.

(** [e.find('a/b')]: the first match, or [None]. *)
Definition find (a b : string) (e : element) : option element :=
  hd_error (select_child b (select_child a [e])).

End ET.

(** ** The outside world *)

Record payload : Type := {
  sku : string;
  title : string;
  description : string;
  brand : string;
  manufacturer : string;
  model_number : string;
  price : float;
  category : string;
  upc : string }.

Record response : Type := { status_code : Z; text : string }.

(** What a run does to the outside, in the order it does it. *)
Inductive event : Type :=
| CameraRead
| CameraRelease
| OpenAICompletion (prompt : string)
| EbayGet (keywords : string)
| FileRead
| FileWrite (content : string)
| SellbritePost (url : string) (headers : list (string * string)) (data : payload)
| Print (message : string).

(** The answers of the outside: the clock, the text of the first choice of a
    completion, the parsed body of a sold-listings reply ([None] when
    [ET.fromstring] raises on it), and the reply of the inventory API. *)
Record env : Type := {
  now : datetime;
  openai_completion : string -> string;
  ebay_document : string -> option ET.element;
  sellbrite_reply : payload -> response }.

(** The content of [SEQUENTIAL_FILE] ([None]: no such file) and the events
    so far, oldest first. *)
Record world : Type := { sequential_file : option string; log : list event }.

Definition M (A : Type) : Type := world -> result A * world.

Definition ret {A : Type} (a : A) : M A := fun w => (Ok a, w).

Definition raise {A : Type} (e : exn) : M A := fun w => (Raise e, w).

Definition bind {A B : Type} (m : M A) (k : A -> M B) : M B :=
  fun w =>
    match m w with
    | (inr a, w') => k a w'
    | (inl e, w') => (inl e, w')
    end.

Definition lift {A : Type} (r : result A) : M A := fun w => (r, w).

Declare Scope py_scope.
Delimit Scope py_scope with py.
Notation "x <- m ;; k" := (bind m (fun x => k))
  (at level 61, m at next level, right associativity) : py_scope.
Notation "m ;;; k" := (bind m (fun _ => k))
  (at level 61, right associativity) : py_scope.

Definition emit (e : event) : M unit :=
  fun w => (Ok tt, {| sequential_file := sequential_file w; log := (log w ++ [e])%list |}).

(** [open(SEQUENTIAL_FILE, 'r')] and [f.read()] *)
Definition read_sequential_file : M string :=
  fun w =>
    match sequential_file w with
    | Some content =>
        (Ok content, {| sequential_file := Some content; log := (log w ++ [FileRead])%list |})
    | None => (Raise FileNotFoundError, w)
    end.

(** [open(SEQUENTIAL_FILE, 'w')] and [f.write(content)] *)
Definition write_sequential_file (content : string) : M unit :=
  fun w =>
    (Ok tt, {| sequential_file := Some content; log := (log w ++ [FileWrite content])%list |}).

(** [l[i]] *)
Definition index {A : Type} (l : list A) (i : nat) : result A :=
  match nth_error l i with
  | Some x => Ok x
  | None => Raise IndexError
  end.

Local Open Scope py_scope.

(** ** The script *)

Definition generate_sku (E : env) : M string :=
  content <- read_sequential_file ;;
  seq_number <- lift (PyInt.int (PyStr.strip content)) ;;
  let seq_number := seq_number + 1 in
  write_sequential_file (PyInt.str seq_number) ;;;
  let date_str := PyDate.strftime_ymd (now E) in
  let sku := date_str ++ "-B-" ++ PyInt.format_03 seq_number in
  ret sku.

(** The body of the loop over the items: the sold price of one item. *)
Definition item_price (item : ET.element) : result float :=
  match ET.find "sellingStatus" "currentPrice" item with
  | Some node => PyFloat.float_of_text (ET.text_of node)
  | None => Raise AttributeError
  end.

(** The loop over the items, on the two accumulators. *)
Fixpoint sum_prices (items : list ET.element) (total_price : float) (total_items : Z)
  : result (float * Z) :=
  match items with
  | [] => Ok (total_price, total_items)
  | item :: rest =>
      match item_price item with
      | inr price => sum_prices rest (total_price + price)%float (total_items + 1)
      | inl e => Raise e
      end
  end.

Definition get_ebay_sold_price (E : env) (upc_code : string) : M (option float) :=
  let keywords := "UPC:" ++ upc_code in
  emit (EbayGet keywords) ;;;
  root <- lift (match ebay_document E keywords with
                | Some root => Ok root
                | None => Raise XMLParseError
                end) ;;
  totals <- lift (sum_prices (ET.iter "item" root) 0%float 0) ;;
  let '(total_price, total_items) := totals in
  if 0 <? total_items then
    let average_price := (total_price / PyFloat.of_int total_items)%float in
    ret (Some (average_price / PyFloat.of_int 2)%float)
  else ret None.

Record product_info : Type := {
  info_title : string;
  info_description : string;
  info_brand : string;
  info_manufacturer : string;
  info_model_number : string;
  info_msrp : string;
  info_category : string }.

Definition newline : ascii := "010"%char.

Definition generate_product_info (E : env) (upc_code : string) : M product_info :=
  let prompt :=
    "Generate a product title, description, brand, manufacturer, model number, MSRP, "
    ++ "and category for a product with UPC code " ++ upc_code ++ "." in
  emit (OpenAICompletion prompt) ;;;
  let generated_text := PyStr.split newline (PyStr.strip (openai_completion E prompt)) in
  title <- lift (index generated_text 0) ;;
  description <- lift (index generated_text 1) ;;
  brand <- lift (index generated_text 2) ;;
  manufacturer <- lift (index generated_text 3) ;;
  model_number <- lift (index generated_text 4) ;;
  msrp <- lift (index generated_text 5) ;;
  category <- lift (index generated_text 6) ;;
  ret {| info_title := title; info_description := description; info_brand := brand;
         info_manufacturer := manufacturer; info_model_number := model_number;
         info_msrp := msrp; info_category := category |}.

Definition base_url : string := "https://api.sellbrite.com/v1".

Definition authorization (api_key api_secret : string) : string :=
  "Basic " ++ api_key ++ ":" ++ api_secret.

Definition create_sellbrite_product_listing (E : env) (api_key api_secret upc_code : string)
  : M unit :=
  let headers := [("Content-Type", "application/json");
                  ("Authorization", authorization api_key api_secret)] in
  info <- generate_product_info E upc_code ;;
  ebay_sold_price <- get_ebay_sold_price E upc_code ;;
  price <- lift (match ebay_sold_price with
                 | Some p => Ok p
                 | None =>
                     match PyFloat.float_of_str (info_msrp info) with
                     | inr m => Ok (m / PyFloat.of_int 2)%float
                     | inl e => Raise e
                     end
                 end) ;;
  sku <- generate_sku E ;;
  let payload := {| sku := sku; title := info_title info;
                    description := info_description info; brand := info_brand info;
                    manufacturer := info_manufacturer info;
                    model_number := info_model_number info;
                    price := price; category := info_category info;
                    upc := upc_code |} in
  emit (SellbritePost (base_url ++ "/products") headers payload) ;;;
  let response := sellbrite_reply E payload in
  if status_code response =? 201 then
    emit (Print "Product listing created successfully.")
  else
    emit (Print ("Failed to create product listing. Error: " ++ text response)).

(** What the barcode decoder reports for a symbol: its type, and its
    payload decoded as UTF-8 (an error when the bytes are not UTF-8). *)
Record symbol : Type := { symbol_type : string; symbol_data : result string }.

(** One [camera.read()]: the flag, and the symbols the decoder finds in the
    frame ([None]: no frame). *)
Record camera_read : Type := { read_ok : bool; frame : option (list symbol) }.

(** The loop of [main] over the successive reads of the camera; [None] when
    the reads given are used up and the loop is still waiting. *)
Fixpoint scan (reads : list camera_read) : M (option string) :=
  match reads with
  | [] => ret None
  | r :: rest =>
      emit CameraRead ;;;
      match read_ok r, frame r with
      | true, Some decoded_objects =>
          match List.find (fun obj => String.eqb (symbol_type obj) "UPC") decoded_objects with
          | Some obj => upc_code <- lift (symbol_data obj) ;; ret (Some upc_code)
          | None => scan rest
          end
      | _, _ => scan rest
      end
  end.

Definition main (E : env) (reads : list camera_read) : M (option unit) :=
  let api_key := "your_api_key" in
  let api_secret := "your_api_secret" in
  found <- scan reads ;;
  match found with
  | None => ret None
  | Some upc_code =>
      emit CameraRelease ;;;
      create_sellbrite_product_listing E api_key api_secret upc_code ;;;
      ret (Some tt)
  end.

(** ** Notions the properties are stated with *)


(** The sum of a list of floats from left to right, starting from zero, and
    their arithmetic mean, in binary64 arithmetic. *)
Definition float_sum (ps : list float) : float :=
  fold_left PrimFloat.add ps 0%float.

Definition arithmetic_mean (ps : list float) : float :=
  (float_sum ps / PyFloat.of_int (Z.of_nat (List.length ps)))%float.

Definition half (x : float) : float := (x / 2)%float.

(** A listing whose sold price cannot be read: no price node, a price node
    without text, or a text that is not a float literal. *)
Definition malformed_price (item : ET.element) : Prop :=
  match ET.find "sellingStatus" "currentPrice" item with
  | None => True
  | Some node =>
      match ET.text_of node with
      | None => True
      | Some s => forall x : float, PyFloat.float_of_str s <> Ok x
      end
  end.

(** The currency sign of the example of a malformed MSRP. *)
Definition dollar : ascii := "$"%char.

(** The payloads submitted and the messages printed, read off a log. *)
Definition posts (l : list event) : list payload :=
  flat_map (fun e => match e with SellbritePost _ _ d => [d] | _ => [] end) l.

Definition post_headers (l : list event) : list (list (string * string)) :=
  flat_map (fun e => match e with SellbritePost _ h _ => [h] | _ => [] end) l.

Definition prints (l : list event) : list string :=
  flat_map (fun e => match e with Print m => [m] | _ => [] end) l.

(** The lines the metadata generator indexes. *)
Definition prompt_for (upc_code : string) : string :=
  "Generate a product title, description, brand, manufacturer, model number, MSRP, "
  ++ "and category for a product with UPC code " ++ upc_code ++ ".".

Definition completion_lines (E : env) (upc_code : string) : list string :=
  PyStr.split newline (PyStr.strip (openai_completion E (prompt_for upc_code))).

(** A world with the given counter file and no event yet. *)
Definition fresh (file : option string) : world :=
  {| sequential_file := file; log := [] |}.

(** *** Stages of the pipeline *)

Inductive stage : Type := Acquiring | Minting | Estimating | Generating | Publishing.

Definition stage_eqb (a b : stage) : bool :=
  match a, b with
  | Acquiring, Acquiring | Minting, Minting | Estimating, Estimating
  | Generating, Generating | Publishing, Publishing => true
  | _, _ => false
  end.

(** The stage an event belongs to; printing the outcome ends the run and
    belongs to none. *)
Definition stage_of (e : event) : option stage :=
  match e with
  | CameraRead | CameraRelease => Some Acquiring
  | OpenAICompletion _ => Some Generating
  | EbayGet _ => Some Estimating
  | FileRead | FileWrite _ => Some Minting
  | SellbritePost _ _ _ => Some Publishing
  | Print _ => None
  end.

(** Adjacent repetitions of a stage are one visit. *)
Fixpoint visits_of (l : list stage) : list stage :=
  match l with
  | [] => []
  | a :: l' =>
      match l' with
      | b :: _ => if stage_eqb a b then visits_of l' else a :: visits_of l'
      | [] => [a]
      end
  end.

(** The stage of every event of a log that has one. *)
Definition stages (l : list event) : list stage :=
  flat_map (fun e => match stage_of e with Some s => [s] | None => [] end) l.

(** The stages a log visits, in order, each maximal stay counted once. *)
Definition visits (l : list event) : list stage := visits_of (stages l).

Fixpoint is_prefix (l order : list stage) : bool :=
  match l, order with
  | [], _ => true
  | a :: l', b :: order' => stage_eqb a b && is_prefix l' order'
  | _ :: _, [] => false
  end.

(** The order the state machine of the specification gives, and the order
    of the calls in [create_sellbrite_product_listing]. *)
Definition specified_order : list stage :=
  [Acquiring; Minting; Estimating; Generating; Publishing].

Definition call_order : list stage :=
  [Acquiring; Generating; Estimating; Minting; Publishing].

(** *** Traces of the publisher *)

(** The world [w] after the events [l]. *)
Definition after (w : world) (l : list event) : world :=
  {| sequential_file := sequential_file w; log := (log w ++ l)%list |}.

(** The price the publisher submits: the estimate, or else half the MSRP. *)
Definition selected_price (estimate : option float) (msrp : string) : result float :=
  match estimate with
  | Some p => Ok p
  | None =>
      match PyFloat.float_of_str msrp with
      | inr m => Ok (m / PyFloat.of_int 2)%float
      | inl e => Raise e
      end
  end.

Definition listing (sku : string) (info : product_info) (price : float)
  (upc_code : string) : payload :=
  {| sku := sku; title := info_title info; description := info_description info;
     brand := info_brand info; manufacturer := info_manufacturer info;
     model_number := info_model_number info; price := price;
     category := info_category info; upc := upc_code |}.

Definition request_headers (api_key api_secret : string) : list (string * string) :=
  [("Content-Type", "application/json");
   ("Authorization", authorization api_key api_secret)].

Definition success_message : string := "Product listing created successfully.".

Definition failure_message (body : string) : string :=
  "Failed to create product listing. Error: " ++ body.

(** The events one call of [create_sellbrite_product_listing] can add to
    the log, with the result of the call: it stops after the completion
    request, after the sold-listings request, after reading the counter
    file, or it goes through to the submission and the report. *)
Inductive listing_trace (E : env) (api_key api_secret upc_code : string)
  : result unit -> list event -> Prop :=
| stopped_generating (e : exn) :
    listing_trace E api_key api_secret upc_code (Raise e)
      [OpenAICompletion (prompt_for upc_code)]
| stopped_estimating (e : exn) :
    listing_trace E api_key api_secret upc_code (Raise e)
      [OpenAICompletion (prompt_for upc_code); EbayGet ("UPC:" ++ upc_code)]
| stopped_minting (e : exn) :
    listing_trace E api_key api_secret upc_code (Raise e)
      [OpenAICompletion (prompt_for upc_code); EbayGet ("UPC:" ++ upc_code); FileRead]
| submitted (content : string) (d : payload) :
    upc d = upc_code ->
    listing_trace E api_key api_secret upc_code (Ok tt)
      [OpenAICompletion (prompt_for upc_code); EbayGet ("UPC:" ++ upc_code);
       FileRead; FileWrite content;
       SellbritePost (base_url ++ "/products") (request_headers api_key api_secret) d;
       Print (if status_code (sellbrite_reply E d) =? 201 then success_message
              else failure_message (text (sellbrite_reply E d)))].

(** *** Base64, for the Basic authentication scheme *)

Module Base64.

Definition alphabet : list ascii :=
  list_ascii_of_string
    "ABCDEFGHIJKLMNOPQRSTUVWXYZabcdefghijklmnopqrstuvwxyz0123456789+/".

Definition sextet (i : N) : ascii := nth (N.to_nat i) alphabet "A"%char.

Fixpoint encode (s : string) : string :=
  match s with
  | EmptyString => EmptyString
  | String a EmptyString =>
      let n := (PyStr.code a * 65536)%N in
      String (sextet (n / 262144)) (String (sextet ((n / 4096) mod 64)) "==")
  | String a (String b EmptyString) =>
      let n := (PyStr.code a * 65536 + PyStr.code b * 256)%N in
      String (sextet (n / 262144))
        (String (sextet ((n / 4096) mod 64)) (String (sextet ((n / 64) mod 64)) "="))
  | String a (String b (String c rest)) =>
      let n := (PyStr.code a * 65536 + PyStr.code b * 256 + PyStr.code c)%N in
      String (sextet (n / 262144))
        (String (sextet ((n / 4096) mod 64))
           (String (sextet ((n / 64) mod 64))
              (String (sextet (n mod 64)) (encode rest))))
  end.

End Base64.

(** The value of the [Authorization] header under the Basic scheme. *)
Definition basic_authorization (api_key api_secret : string) : string :=
  "Basic " ++ Base64.encode (api_key ++ ":" ++ api_secret).

(** ** Sample inputs, used to evaluate the script *)

Module Sample.

Definition lf : string := String newline EmptyString.

Definition today : datetime := {| year := 2026; month := 1; day := 6 |}.

(** A sold listing with the given text in its price node. *)
Definition listing (price_text : string) : ET.element :=
  ET.Element "item" None
    [ET.Element "title" (Some "listing") [];
     ET.Element "sellingStatus" None
       [ET.Element "currentPrice" (Some price_text) []]].

(** A listing without a price node. *)
Definition listing_without_price : ET.element :=
  ET.Element "item" None [ET.Element "title" (Some "listing") []].

Definition document_of (items : list ET.element) : ET.element :=
  ET.Element "findCompletedItemsResponse" None
    [ET.Element "ack" (Some "Success") [];
     ET.Element "searchResult" None items].

Definition document (prices : list string) : ET.element :=
  document_of (map listing prices).

Definition lines (l : list string) : string := String.concat lf l.

Definition seven : list string :=
  ["Title"; "Description"; "Brand"; "Manufacturer"; "Model"; "19.99"; "Category"].

(** Seven lines of metadata with the given MSRP line, and the record the
    generator makes of them. *)
Definition completion (msrp : string) : string :=
  lines ["Title"; "Description"; "Brand"; "Manufacturer"; "Model"; msrp; "Category"].

Definition info (msrp : string) : product_info :=
  {| info_title := "Title"; info_description := "Description"; info_brand := "Brand";
     info_manufacturer := "Manufacturer"; info_model_number := "Model";
     info_msrp := msrp; info_category := "Category" |}.

Definition environment (completion : string) (doc : option ET.element)
  (reply : response) : env :=
  {| now := today;
     openai_completion := fun _ => completion;
     ebay_document := fun _ => doc;
     sellbrite_reply := fun _ => reply |}.

Definition created : response := {| status_code := 201; text := "{}" |}.

Definition rejected : response :=
  {| status_code := 422; text := "sku has already been taken" |}.

Definition upc_code : string := "012345678905".

(** Two reads of the camera: a failed one, then a frame with two symbols. *)
Definition reads : list camera_read :=
  [{| read_ok := false; frame := None |};
   {| read_ok := true;
      frame := Some [{| symbol_type := "EAN13"; symbol_data := Ok "4006381333931" |};
                     {| symbol_type := "UPC"; symbol_data := Ok upc_code |}] |}].

(** The worlds of a run from the counter file [file], after the completion
    request and after the sold-listings request. *)
Definition generated (file : option string) : world :=
  after (fresh file) [OpenAICompletion (prompt_for upc_code)].

Definition estimated (file : option string) : world :=
  after (generated file) [EbayGet ("UPC:" ++ upc_code)].

End Sample.

(** ** Notions for the further properties *)

(** The symbol the loop of [main] takes from one read of the camera: the
    first symbol of type UPC of the frame, when the read succeeded and
    brought a frame. *)
Definition upc_symbol (r : camera_read) : option symbol :=
  match read_ok r, frame r with
  | true, Some decoded_objects =>
      List.find (fun obj => String.eqb (symbol_type obj) "UPC") decoded_objects
  | _, _ => None
  end.

(** What the loop makes of the symbol it takes. *)
Definition scanned (obj : symbol) : result (option string) :=
  match symbol_data obj with
  | inr upc_code => Ok (Some upc_code)
  | inl e => Raise e
  end.

(** The exception the price of a listing raises, if it raises one. *)
Definition price_failure (item : ET.element) : option exn :=
  match ET.find "sellingStatus" "currentPrice" item with
  | None => Some AttributeError
  | Some node =>
      match ET.text_of node with
      | None => Some TypeError
      | Some s =>
          match PyFloat.float_of_str s with
          | inl _ => Some ValueError
          | inr _ => None
          end
      end
  end.

(** The number of occurrences of a character in a string. *)
Fixpoint count_char (c : ascii) (s : string) : nat :=
  match s with
  | EmptyString => O
  | String d s' => if Ascii.eqb d c then S (count_char c s') else count_char c s'
  end.

Definition not_newline (c : ascii) : bool := negb (Ascii.eqb c newline).


(** Reads of the camera that bring no UPC symbol, and reads whose UPC
    symbol has a payload that is not UTF-8. *)
Module Further.

Definition blind_reads : list camera_read :=
  [{| read_ok := false; frame := None |};
   {| read_ok := true; frame := None |};
   {| read_ok := true;
      frame := Some [{| symbol_type := "EAN13"; symbol_data := Ok "4006381333931" |};
                     {| symbol_type := "QRCODE"; symbol_data := Ok "UPC" |}] |}].

Definition garbled_symbol : symbol :=
  {| symbol_type := "UPC"; symbol_data := Raise UnicodeDecodeError |}.

Definition garbled_reads : list camera_read :=
  [{| read_ok := true; frame := Some [] |};
   {| read_ok := true; frame := Some [garbled_symbol] |}].

End Further.

(** * Properties *)

(** ** The monad *)

Lemma bind_ok {A B : Type} (m : M A) (k : A -> M B) w a w' :
  m w = (Ok a, w') -> bind m k w = k a w'.
Proof. unfold bind; intros ->; reflexivity. Qed.

Lemma bind_raise {A B : Type} (m : M A) (k : A -> M B) w e w' :
  m w = (Raise e, w') -> bind m k w = (Raise e, w').
Proof. unfold bind; intros ->; reflexivity. Qed.

(** ** Decimal numerals *)

Lemma all_chars_weaken (P Q : ascii -> bool) s :
  (forall c, P c = true -> Q c = true) ->
  PyStr.all_chars P s = true -> PyStr.all_chars Q s = true.
Proof.
  intros HPQ; induction s as [|c s IH]; simpl; auto.
  rewrite !andb_true_iff; intros [Hc Hs]; auto.
Qed.

Lemma lstrip_by_head sp c s :
  sp c = false -> PyStr.lstrip_by sp (String c s) = String c s.
Proof. simpl; intros ->; reflexivity. Qed.

Lemma rstrip_by_none sp s :
  PyStr.all_chars (fun c => negb (sp c)) s = true -> PyStr.rstrip_by sp s = s.
Proof.
  induction s as [|c s IH]; simpl; auto.
  rewrite andb_true_iff, negb_true_iff; intros [Hc Hs].
  rewrite (IH Hs), Hc, andb_false_r; reflexivity.
Qed.

Ltac code_cases :=
  repeat match goal with
         | |- context [N.leb ?a ?b] => destruct (N.leb_spec a b)
         | |- context [N.eqb ?a ?b] => destruct (N.eqb_spec a b)
         end;
  simpl; intros; try reflexivity; try discriminate; try lia.

Lemma isdigit_not_space c : PyStr.isdigit c = true -> negb (PyStr.isspace c) = true.
Proof.
  unfold PyStr.isdigit, PyStr.isspace; generalize (PyStr.code c); intros n.
  code_cases.
Qed.

Lemma isdigit_not_space_numeric c :
  PyStr.isdigit c = true -> PyStr.isspace_numeric c = false.
Proof.
  unfold PyStr.isdigit, PyStr.isspace_numeric; generalize (PyStr.code c); intros n.
  code_cases.
Qed.

Lemma string_of_uint_digits d :
  PyStr.all_chars PyStr.isdigit (NilEmpty.string_of_uint d) = true.
Proof. induction d; simpl; auto. Qed.

Lemma digits_step c acc prev s :
  PyStr.isdigit c = true ->
  PyInt.digits acc prev (String c s) = PyInt.digits (10 * acc + PyStr.digit_value c) true s.
Proof. simpl; intros ->; reflexivity. Qed.

Ltac digit_value_eval :=
  match goal with
  | |- context [PyStr.digit_value ?c] =>
      let v := eval vm_compute in (PyStr.digit_value c) in
      change (PyStr.digit_value c) with v
  end.

Lemma digits_of_uint_acc d : forall acc,
  PyInt.digits (Zpos acc) true (NilEmpty.string_of_uint d)
  = Some (Zpos (Pos.of_uint_acc d acc), EmptyString).
Proof.
  induction d; intros acc; cbn [NilEmpty.string_of_uint Pos.of_uint_acc];
    [reflexivity | ..];
    rewrite digits_step by reflexivity; rewrite <- IHd; f_equal;
    digit_value_eval; lia.
Qed.

Lemma digits_of_uint d :
  PyInt.digits 0 true (NilEmpty.string_of_uint d)
  = Some (Z.of_N (Pos.of_uint d), EmptyString).
Proof.
  induction d; cbn [NilEmpty.string_of_uint Pos.of_uint];
    [reflexivity | ..];
    rewrite digits_step by reflexivity;
    [exact IHd | cbn [Z.of_N]; rewrite <- digits_of_uint_acc; reflexivity ..].
Qed.

Lemma string_of_uint_head d :
  d <> Decimal.Nil ->
  exists c s, NilEmpty.string_of_uint d = String c s /\ PyStr.isdigit c = true.
Proof.
  destruct d; intros H; try congruence; simpl; eexists; eexists; split; reflexivity.
Qed.

Lemma int_of_numeral d :
  d <> Decimal.Nil ->
  PyInt.int (NilEmpty.string_of_uint d) = Ok (Z.of_N (Pos.of_uint d)) /\
  PyInt.int (String "-" (NilEmpty.string_of_uint d)) = Ok (- Z.of_N (Pos.of_uint d)).
Proof.
  intros Hd. pose proof (digits_of_uint d) as Hdig.
  destruct (string_of_uint_head d Hd) as (c & s & Hs & Hc).
  rewrite Hs in *.
  pose proof (isdigit_not_space_numeric c Hc) as Hsp.
  assert (Hsign : PyInt.sign_and_rest (String c s) = (false, String c s)).
  { unfold PyInt.sign_and_rest.
    destruct c as [[] [] [] [] [] [] [] []]; try reflexivity; discriminate Hc. }
  split.
  - unfold PyInt.int. rewrite (lstrip_by_head _ _ _ Hsp), Hsign, Hc, Hdig.
    reflexivity.
  - unfold PyInt.int. rewrite lstrip_by_head by reflexivity.
    change (PyInt.sign_and_rest (String "-" (String c s))) with (true, String c s).
    cbv beta iota. rewrite Hc, Hdig. reflexivity.
Qed.

Lemma strip_numeral d :
  PyStr.strip (NilEmpty.string_of_uint d) = NilEmpty.string_of_uint d /\
  PyStr.strip (String "-" (NilEmpty.string_of_uint d)) = String "-" (NilEmpty.string_of_uint d).
Proof.
  pose proof (string_of_uint_digits d) as Hall.
  pose proof (all_chars_weaken _ (fun c => negb (PyStr.isspace c)) _ isdigit_not_space Hall) as Hns.
  unfold PyStr.strip. split.
  - destruct (NilEmpty.string_of_uint d) as [|c s] eqn:E; [reflexivity|].
    simpl in Hns. apply andb_true_iff in Hns as [Hc Hs].
    rewrite lstrip_by_head by (now apply negb_true_iff).
    apply rstrip_by_none. simpl. now rewrite Hc, Hs.
  - rewrite lstrip_by_head by reflexivity.
    apply rstrip_by_none. simpl. exact Hns.
Qed.

(** [int] reads back what [str] writes, also through [strip]. *)
Lemma int_str n : PyInt.int (PyStr.strip (PyInt.str n)) = Ok n.
Proof.
  unfold PyInt.str. destruct n as [|p|p]; simpl Z.to_int.
  - reflexivity.
  - simpl NilEmpty.string_of_int.
    rewrite (proj1 (strip_numeral _)).
    rewrite (proj1 (int_of_numeral _ (Unsigned.to_uint_nonnil p))).
    now rewrite Unsigned.of_to.
  - simpl NilEmpty.string_of_int.
    rewrite (proj2 (strip_numeral _)).
    rewrite (proj2 (int_of_numeral _ (Unsigned.to_uint_nonnil p))).
    now rewrite Unsigned.of_to.
Qed.

(** ** The identifier minter *)

Lemma int_raises_value_error s e : PyInt.int s = Raise e -> e = ValueError.
Proof.
  unfold PyInt.int.
  destruct (PyInt.sign_and_rest _) as [neg s2].
  destruct s2 as [|c s2]; [intros [= <-]; reflexivity|].
  destruct (PyStr.isdigit c); [|intros [= <-]; reflexivity].
  destruct (PyInt.digits _ _ _) as [[v rest]|]; [|intros [= <-]; reflexivity].
  destruct (PyStr.is_empty _); [discriminate|intros [= <-]; reflexivity].
Qed.





(** C7.  When the content of the counter file is not a numeral the script
    fails with [ValueError], and when there is no counter file it fails
    with [FileNotFoundError]; no SKU is returned, and the file is left as
    it was. *)
Theorem generate_sku_rejects (E : env) (w : world) :
  (forall content : string,
      sequential_file w = Some content ->
      (forall N : Z, PyInt.int (PyStr.strip content) <> Ok N) ->
      generate_sku E w
      = (Raise ValueError,
         {| sequential_file := Some content; log := (log w ++ [FileRead])%list |}))
  /\ (sequential_file w = None ->
      generate_sku E w = (Raise FileNotFoundError, w)).
Proof.
  split.
  - intros content Hfile Hbad.
    unfold generate_sku, bind, read_sequential_file, lift.
    rewrite Hfile. cbv beta iota.
    destruct (PyInt.int (PyStr.strip content)) as [e|N] eqn:Hint.
    + rewrite (int_raises_value_error _ _ Hint). reflexivity.
    + exfalso. exact (Hbad N eq_refl).
  - intros Hfile.
    unfold generate_sku, bind, read_sequential_file. rewrite Hfile. reflexivity.
Qed.

Lemma generate_sku_rejects_witness :
  generate_sku (Sample.environment "" None Sample.created) (fresh (Some "4x1"))
  = (Raise ValueError, {| sequential_file := Some "4x1"; log := [FileRead] |})
  /\ generate_sku (Sample.environment "" None Sample.created) (fresh None)
     = (Raise FileNotFoundError, fresh None).
Proof.
  pose proof (generate_sku_rejects
                (Sample.environment "" None Sample.created) (fresh (Some "4x1"))) as H1.
  pose proof (generate_sku_rejects
                (Sample.environment "" None Sample.created) (fresh None)) as H2.
  split.
  - apply (proj1 H1 "4x1" eq_refl). intros N HN. vm_compute in HN. discriminate HN.
  - apply (proj2 H2 eq_refl).
Defined.

(** ** The price estimator *)

Lemma float_of_str_raises_value_error s e :
  PyFloat.float_of_str s = Raise e -> e = ValueError.
Proof.
  unfold PyFloat.float_of_str.
  destruct (PyFloat.drop_underscores _ _) as [s2|]; [|intros [= <-]; reflexivity].
  destruct (PyFloat.number s2); [discriminate|].
  destruct (PyFloat.inf_or_nan s2); [discriminate|intros [= <-]; reflexivity].
Qed.

Lemma item_price_raises item e :
  item_price item = Raise e ->
  e = AttributeError \/ e = TypeError \/ e = ValueError.
Proof.
  unfold item_price, PyFloat.float_of_text.
  destruct (ET.find _ _ item) as [node|]; [|intros [= <-]; auto].
  destruct (ET.text_of node) as [s|]; [|intros [= <-]; auto].
  intros H. right; right. exact (float_of_str_raises_value_error _ _ H).
Qed.

Lemma malformed_price_raises item :
  malformed_price item -> exists e, item_price item = Raise e.
Proof.
  unfold malformed_price, item_price, PyFloat.float_of_text.
  destruct (ET.find _ _ item) as [node|]; [|eauto].
  destruct (ET.text_of node) as [s|]; [|eauto].
  intros H. destruct (PyFloat.float_of_str s) as [e|x]; [eauto|].
  exfalso. exact (H x eq_refl).
Qed.

(** The loop invariant of the summation: the accumulators after the loop. *)
Lemma sum_prices_all_read items ps :
  Forall2 (fun item p => item_price item = Ok p) items ps ->
  forall (total_price : float) (total_items : Z),
    sum_prices items total_price total_items
    = Ok (fold_left PrimFloat.add ps total_price,
          total_items + Z.of_nat (List.length ps)).
Proof.
  induction 1 as [|item p items ps Hp _ IH]; intros total_price total_items.
  - simpl. now rewrite Z.add_0_r.
  - cbn [sum_prices fold_left List.length]. rewrite Hp, IH.
    do 2 f_equal. lia.
Qed.

(** One unreadable price aborts the loop, wherever it stands. *)
Lemma sum_prices_one_malformed items item :
  In item items -> malformed_price item ->
  forall (total_price : float) (total_items : Z),
  exists e, sum_prices items total_price total_items = Raise e
            /\ (e = AttributeError \/ e = TypeError \/ e = ValueError).
Proof.
  induction items as [|first rest IH]; intros Hin Hbad total_price total_items.
  - destruct Hin.
  - cbn [sum_prices].
    destruct (item_price first) as [e|price] eqn:Hfirst.
    + exists e. split; [reflexivity|]. exact (item_price_raises _ _ Hfirst).
    + destruct Hin as [->|Hin].
      * destruct (malformed_price_raises _ Hbad) as [e He]. congruence.
      * apply IH; assumption.
Qed.

Lemma get_ebay_sold_price_unfold E upc_code w :
  get_ebay_sold_price E upc_code w =
  let w' := {| sequential_file := sequential_file w;
               log := (log w ++ [EbayGet ("UPC:" ++ upc_code)])%list |} in
  match ebay_document E ("UPC:" ++ upc_code) with
  | None => (Raise XMLParseError, w')
  | Some root =>
      match sum_prices (ET.iter "item" root) 0%float 0 with
      | inl e => (Raise e, w')
      | inr (total_price, total_items) =>
          if 0 <? total_items
          then (Ok (Some (total_price / PyFloat.of_int total_items / PyFloat.of_int 2)%float), w')
          else (Ok None, w')
      end
  end.
Proof.
  unfold get_ebay_sold_price, bind, emit, lift, ret. cbv beta iota zeta.
  destruct (ebay_document E _) as [root|]; [|reflexivity].
  destruct (sum_prices _ _ _) as [e|[total_price total_items]]; [reflexivity|].
  destruct (0 <? total_items); reflexivity.
Qed.



(** C8.  A reply that is not a document makes the estimator fail; so does a
    reply in which some listing has no readable price.  The failure is the
    result: no estimate is returned from the other listings. *)
Theorem get_ebay_sold_price_propagates (E : env) (upc_code : string) (w : world) :
  (ebay_document E ("UPC:" ++ upc_code) = None ->
   fst (get_ebay_sold_price E upc_code w) = Raise XMLParseError)
  /\ (forall (root item : ET.element),
        ebay_document E ("UPC:" ++ upc_code) = Some root ->
        In item (ET.iter "item" root) ->
        malformed_price item ->
        exists e, fst (get_ebay_sold_price E upc_code w) = Raise e
                  /\ (e = AttributeError \/ e = TypeError \/ e = ValueError)).
Proof.
  split.
  - intros Hdoc. rewrite get_ebay_sold_price_unfold. cbv zeta. rewrite Hdoc.
    reflexivity.
  - intros root item Hdoc Hin Hbad.
    rewrite get_ebay_sold_price_unfold. cbv zeta. rewrite Hdoc.
    destruct (sum_prices_one_malformed _ _ Hin Hbad 0%float 0) as (e & He & Hcase).
    exists e. rewrite He. split; [reflexivity | exact Hcase].
Qed.

Lemma get_ebay_sold_price_propagates_witness :
  fst (get_ebay_sold_price (Sample.environment "" None Sample.created)
         Sample.upc_code (fresh None))
  = Raise XMLParseError
  /\ (exists e,
        fst (get_ebay_sold_price
               (Sample.environment ""
                  (Some (Sample.document ["10.0"; "$20.00"; "30.0"])) Sample.created)
               Sample.upc_code (fresh None))
        = Raise e
        /\ (e = AttributeError \/ e = TypeError \/ e = ValueError))
  /\ (exists e,
        fst (get_ebay_sold_price
               (Sample.environment ""
                  (Some (Sample.document_of
                           [Sample.listing "10.0"; Sample.listing_without_price]))
                  Sample.created)
               Sample.upc_code (fresh None))
        = Raise e
        /\ (e = AttributeError \/ e = TypeError \/ e = ValueError)).
Proof.
  split; [|split].
  - exact (proj1 (get_ebay_sold_price_propagates
                    (Sample.environment "" None Sample.created)
                    Sample.upc_code (fresh None)) eq_refl).
  - refine (proj2 (get_ebay_sold_price_propagates
                     (Sample.environment ""
                        (Some (Sample.document ["10.0"; "$20.00"; "30.0"]))
                        Sample.created)
                     Sample.upc_code (fresh None))
                  (Sample.document ["10.0"; "$20.00"; "30.0"])
                  (Sample.listing "$20.00") eq_refl _ _).
    + vm_compute. right; left; reflexivity.
    + vm_compute. intros x Hx. discriminate Hx.
  - refine (proj2 (get_ebay_sold_price_propagates
                     (Sample.environment ""
                        (Some (Sample.document_of
                                 [Sample.listing "10.0"; Sample.listing_without_price]))
                        Sample.created)
                     Sample.upc_code (fresh None))
                  (Sample.document_of
                     [Sample.listing "10.0"; Sample.listing_without_price])
                  Sample.listing_without_price eq_refl _ _).
    + vm_compute. right; left; reflexivity.
    + vm_compute. exact I.
Defined.

(** ** The metadata generator *)

Lemma generate_product_info_unfold E upc_code w :
  generate_product_info E upc_code w =
  let w' := {| sequential_file := sequential_file w;
               log := (log w ++ [OpenAICompletion (prompt_for upc_code)])%list |} in
  match completion_lines E upc_code with
  | t :: d :: b :: m :: mn :: ms :: c :: _ =>
      (Ok {| info_title := t; info_description := d; info_brand := b;
             info_manufacturer := m; info_model_number := mn;
             info_msrp := ms; info_category := c |}, w')
  | _ => (Raise IndexError, w')
  end.
Proof.
  unfold generate_product_info, completion_lines, prompt_for, bind, emit, lift, ret, index.
  cbv beta iota zeta.
  destruct (PyStr.split _ _) as [|t [|d [|b [|m [|mn [|ms [|c rest]]]]]]]; reflexivity.
Qed.

(** C3.  When the trimmed completion splits into exactly seven lines, the
    generator returns them as title, description, brand, manufacturer, model
    number, MSRP and category, in that order; when it splits into six lines
    or fewer, the generator fails with [IndexError] and returns no record. *)
Theorem generate_product_info_seven_or_fewer (E : env) (upc_code : string) (w : world) :
  (forall t d b m mn ms c : string,
      completion_lines E upc_code = [t; d; b; m; mn; ms; c] ->
      fst (generate_product_info E upc_code w)
      = Ok {| info_title := t; info_description := d; info_brand := b;
              info_manufacturer := m; info_model_number := mn;
              info_msrp := ms; info_category := c |})
  /\ ((List.length (completion_lines E upc_code) <= 6)%nat ->
      fst (generate_product_info E upc_code w) = Raise IndexError).
Proof.
  rewrite generate_product_info_unfold. cbv zeta. split.
  - intros t d b m mn ms c ->. reflexivity.
  - intros Hlen.
    destruct (completion_lines E upc_code)
      as [|t [|d [|b [|m [|mn [|ms [|c rest]]]]]]]; try reflexivity.
    cbn [List.length] in Hlen. lia.
Qed.

Lemma generate_product_info_seven_or_fewer_witness :
  fst (generate_product_info
         (Sample.environment (Sample.lines Sample.seven) None Sample.created)
         Sample.upc_code (fresh None))
  = Ok {| info_title := "Title"; info_description := "Description";
          info_brand := "Brand"; info_manufacturer := "Manufacturer";
          info_model_number := "Model"; info_msrp := "19.99";
          info_category := "Category" |}
  /\ fst (generate_product_info
            (Sample.environment (Sample.lines (firstn 6 Sample.seven)) None Sample.created)
            Sample.upc_code (fresh None))
     = Raise IndexError.
Proof.
  split.
  - exact (proj1 (generate_product_info_seven_or_fewer
                    (Sample.environment (Sample.lines Sample.seven) None Sample.created)
                    Sample.upc_code (fresh None))
                 "Title" "Description" "Brand" "Manufacturer" "Model" "19.99" "Category"
                 eq_refl).
  - refine (proj2 (generate_product_info_seven_or_fewer
                     (Sample.environment (Sample.lines (firstn 6 Sample.seven)) None
                        Sample.created)
                     Sample.upc_code (fresh None)) _).
    vm_compute. apply le_n.
Defined.

(** C10.  When the trimmed completion splits into more than seven lines, the
    generator succeeds with the first seven as the seven fields, whatever
    the lines after them are. *)
Theorem generate_product_info_extra_lines (E : env) (upc_code : string) (w : world) :
  forall (t d b m mn ms c : string) (extra : list string),
    completion_lines E upc_code = ([t; d; b; m; mn; ms; c] ++ extra)%list ->
    extra <> [] ->
    fst (generate_product_info E upc_code w)
    = Ok {| info_title := t; info_description := d; info_brand := b;
            info_manufacturer := m; info_model_number := mn;
            info_msrp := ms; info_category := c |}.
Proof.
  intros t d b m mn ms c extra Hlines _.
  rewrite generate_product_info_unfold. cbv zeta. rewrite Hlines. reflexivity.
Qed.

Lemma generate_product_info_extra_lines_witness :
  fst (generate_product_info
         (Sample.environment
            (Sample.lines (Sample.seven ++ ["Thank you!"; "Anything else?"]))
            None Sample.created)
         Sample.upc_code (fresh None))
  = Ok {| info_title := "Title"; info_description := "Description";
          info_brand := "Brand"; info_manufacturer := "Manufacturer";
          info_model_number := "Model"; info_msrp := "19.99";
          info_category := "Category" |}.
Proof.
  refine (generate_product_info_extra_lines
            (Sample.environment
               (Sample.lines (Sample.seven ++ ["Thank you!"; "Anything else?"]))
               None Sample.created)
            Sample.upc_code (fresh None)
            "Title" "Description" "Brand" "Manufacturer" "Model" "19.99" "Category"
            ["Thank you!"; "Anything else?"] eq_refl _).
  discriminate.
Defined.

(** ** Float literals and the currency sign *)

Lemma lstrip_by_keeps sp c s :
  sp c = false -> PyStr.contains c (PyStr.lstrip_by sp s) = PyStr.contains c s.
Proof.
  intros Hc. induction s as [|d s IH]; [reflexivity|].
  cbn [PyStr.lstrip_by]. destruct (sp d) eqn:Hd; [|reflexivity].
  rewrite IH. cbn [PyStr.contains].
  destruct (Ascii.eqb_spec c d) as [->|_]; [congruence | reflexivity].
Qed.

Lemma rstrip_by_keeps sp c s :
  sp c = false -> PyStr.contains c (PyStr.rstrip_by sp s) = PyStr.contains c s.
Proof.
  intros Hc. induction s as [|d s IH]; [reflexivity|].
  cbn [PyStr.rstrip_by]. cbv zeta.
  destruct (PyStr.is_empty (PyStr.rstrip_by sp s) && sp d) eqn:Hcut.
  - apply andb_true_iff in Hcut as [Hempty Hd].
    destruct (PyStr.rstrip_by sp s); [|discriminate].
    cbn [PyStr.contains] in *. rewrite <- IH.
    destruct (Ascii.eqb_spec c d) as [->|_]; [congruence | reflexivity].
  - cbn [PyStr.contains]. now rewrite IH.
Qed.

Lemma drop_underscores_keeps c : Ascii.eqb c "_" = false ->
  forall s prev s',
    PyFloat.drop_underscores prev s = Some s' ->
    PyStr.contains c s' = PyStr.contains c s.
Proof.
  intros Hc. induction s as [|d s IH]; intros prev s' H.
  - cbn in H. destruct prev as [[[] [] [] [] [] [] [] []]|]; inversion H; reflexivity.
  - cbn [PyFloat.drop_underscores] in H. cbn [PyStr.contains].
    destruct (Ascii.eqb_spec d "_") as [->|Hd].
    + rewrite Hc. cbn [orb].
      destruct prev as [p|]; [|discriminate].
      destruct (PyStr.isdigit p); [|discriminate]. exact (IH _ _ H).
    + assert (Hkeep : forall r, option_map (String d) (PyFloat.drop_underscores (Some d) s) = Some r ->
                                PyStr.contains c r = Ascii.eqb c d || PyStr.contains c s).
      { intros r Hr. destruct (PyFloat.drop_underscores (Some d) s) as [t|] eqn:Ht; [|discriminate].
        injection Hr as <-. cbn [PyStr.contains]. now rewrite (IH _ _ Ht). }
      destruct prev as [[[] [] [] [] [] [] [] []]|];
        try exact (Hkeep _ H).
      destruct (PyStr.isdigit d); [exact (Hkeep _ H) | discriminate].
Qed.

Lemma digit_run_keeps c : PyStr.isdigit c = false ->
  forall s acc count,
    PyStr.contains c (snd (PyFloat.digit_run acc count s)) = PyStr.contains c s.
Proof.
  intros Hc. induction s as [|d s IH]; intros acc count; [reflexivity|].
  cbn [PyFloat.digit_run]. destruct (PyStr.isdigit d) eqn:Hd; [|reflexivity].
  rewrite IH. cbn [PyStr.contains].
  destruct (Ascii.eqb_spec c d) as [->|_]; [congruence | reflexivity].
Qed.

Lemma sign_and_rest_keeps s :
  PyStr.contains dollar (snd (PyInt.sign_and_rest s)) = PyStr.contains dollar s.
Proof.
  destruct s as [|[[] [] [] [] [] [] [] []] s]; reflexivity.
Qed.

Lemma number_rejects_dollar s :
  PyStr.contains dollar s = true -> PyFloat.number s = None.
Proof.
  intros Hs. unfold PyFloat.number.
  rewrite <- sign_and_rest_keeps in Hs.
  destruct (PyInt.sign_and_rest s) as [neg s1]. cbn [snd] in Hs.
  rewrite <- (digit_run_keeps dollar eq_refl s1 0 0) in Hs.
  destruct (PyFloat.digit_run 0 0 s1) as [[m1 n1] s2]. cbn [snd] in Hs.
  assert (Hs3 : forall m2 n2 s3,
             match s2 with
             | String "." r => PyFloat.digit_run m1 0 r
             | _ => (m1, 0, s2)
             end = (m2, n2, s3) ->
             PyStr.contains dollar s3 = true).
  { intros m2 n2 s3 H.
    destruct s2 as [|[[] [] [] [] [] [] [] []] r];
      try (injection H as _ _ <-; exact Hs).
    pose proof (digit_run_keeps dollar eq_refl r m1 0) as Hr.
    rewrite H in Hr. cbn [snd] in Hr. rewrite Hr. exact Hs. }
  destruct (match s2 with String "." r => _ | _ => _ end) as [[m2 n2] s3].
  specialize (Hs3 _ _ _ eq_refl).
  destruct (n1 + n2 =? 0); [reflexivity|].
  destruct s3 as [|c r]; [discriminate Hs3|].
  destruct (PyFloat.is_exponent_mark c) eqn:Hmark; [|reflexivity].
  assert (Hr : PyStr.contains dollar r = true).
  { cbn [PyStr.contains] in Hs3. apply orb_true_iff in Hs3 as [Hc|Hr]; [|exact Hr].
    apply Ascii.eqb_eq in Hc. subst c. discriminate Hmark. }
  rewrite <- sign_and_rest_keeps in Hr.
  destruct (PyInt.sign_and_rest r) as [eneg r1]. cbn [snd] in Hr.
  rewrite <- (digit_run_keeps dollar eq_refl r1 0 0) in Hr.
  destruct (PyFloat.digit_run 0 0 r1) as [[ev en] r2]. cbn [snd] in Hr.
  destruct r2; [discriminate Hr|]. now rewrite andb_false_r.
Qed.

Lemma lowercase_keeps_dollar s :
  PyStr.contains dollar (PyFloat.lowercase s) = PyStr.contains dollar s.
Proof.
  induction s as [|c s IH]; [reflexivity|].
  cbn [PyFloat.lowercase PyStr.contains]. rewrite IH. f_equal.
  destruct c as [[] [] [] [] [] [] [] []]; reflexivity.
Qed.

Lemma inf_or_nan_rejects_dollar s :
  PyStr.contains dollar s = true -> PyFloat.inf_or_nan s = None.
Proof.
  intros Hs. unfold PyFloat.inf_or_nan.
  rewrite <- sign_and_rest_keeps in Hs.
  destruct (PyInt.sign_and_rest s) as [neg s1]. cbn [snd] in Hs.
  rewrite <- lowercase_keeps_dollar in Hs.
  destruct (String.eqb_spec (PyFloat.lowercase s1) "inf") as [H|_];
    [rewrite H in Hs; discriminate Hs|].
  destruct (String.eqb_spec (PyFloat.lowercase s1) "infinity") as [H|_];
    [rewrite H in Hs; discriminate Hs|].
  destruct (String.eqb_spec (PyFloat.lowercase s1) "nan") as [H|_];
    [rewrite H in Hs; discriminate Hs|].
  reflexivity.
Qed.

(** A string with a dollar sign anywhere is not a float literal. *)
Lemma float_of_str_rejects_dollar s :
  PyStr.contains dollar s = true -> PyFloat.float_of_str s = Raise ValueError.
Proof.
  intros Hs. unfold PyFloat.float_of_str.
  rewrite <- (lstrip_by_keeps PyStr.isspace_numeric dollar s eq_refl) in Hs.
  rewrite <- (rstrip_by_keeps PyStr.isspace_numeric dollar _ eq_refl) in Hs.
  destruct (PyFloat.drop_underscores None _) as [s2|] eqn:Hdrop; [|reflexivity].
  rewrite <- (drop_underscores_keeps dollar eq_refl _ _ _ Hdrop) in Hs.
  now rewrite (number_rejects_dollar _ Hs), (inf_or_nan_rejects_dollar _ Hs).
Qed.

(** ** The listing publisher *)

Lemma generate_product_info_effect E upc_code w :
  snd (generate_product_info E upc_code w)
  = after w [OpenAICompletion (prompt_for upc_code)].
Proof.
  rewrite generate_product_info_unfold. cbv zeta.
  destruct (completion_lines E upc_code)
    as [|t [|d [|b [|m [|mn [|ms [|c rest]]]]]]]; reflexivity.
Qed.

Lemma get_ebay_sold_price_effect E upc_code w :
  snd (get_ebay_sold_price E upc_code w)
  = after w [EbayGet ("UPC:" ++ upc_code)].
Proof.
  rewrite get_ebay_sold_price_unfold. cbv zeta.
  destruct (ebay_document E _) as [root|]; [|reflexivity].
  destruct (sum_prices _ _ _) as [e|[total_price total_items]]; [reflexivity|].
  destruct (0 <? total_items); reflexivity.
Qed.

Lemma generate_sku_unfold E w :
  generate_sku E w =
  match sequential_file w with
  | None => (Raise FileNotFoundError, w)
  | Some content =>
      match PyInt.int (PyStr.strip content) with
      | inl e =>
          (Raise e, {| sequential_file := Some content;
                       log := (log w ++ [FileRead])%list |})
      | inr N =>
          (Ok (PyDate.strftime_ymd (now E) ++ "-B-" ++ PyInt.format_03 (N + 1)),
           {| sequential_file := Some (PyInt.str (N + 1));
              log := (log w ++ [FileRead; FileWrite (PyInt.str (N + 1))])%list |})
      end
  end.
Proof.
  unfold generate_sku, bind, read_sequential_file, lift, write_sequential_file, ret.
  destruct (sequential_file w) as [content|]; [|reflexivity].
  cbv beta iota.
  destruct (PyInt.int (PyStr.strip content)) as [e|N]; [reflexivity|].
  cbn [sequential_file log]. rewrite <- app_assoc. reflexivity.
Qed.

(** The counter goes on from one call to the next: the second call reads
    what the first wrote. *)
Lemma generate_sku_twice E w content N :
  sequential_file w = Some content ->
  PyInt.int (PyStr.strip content) = Ok N ->
  sequential_file (snd (generate_sku E (snd (generate_sku E w))))
  = Some (PyInt.str (N + 2)).
Proof.
  intros Hfile Hint.
  rewrite (generate_sku_unfold E w), Hfile, Hint. cbn [snd].
  rewrite generate_sku_unfold. cbn [sequential_file].
  rewrite int_str. cbn [snd sequential_file].
  do 2 f_equal. lia.
Qed.

Lemma create_listing_unfold E api_key api_secret upc_code w :
  create_sellbrite_product_listing E api_key api_secret upc_code w =
  match generate_product_info E upc_code w with
  | (inl e, w1) => (Raise e, w1)
  | (inr info, w1) =>
      match get_ebay_sold_price E upc_code w1 with
      | (inl e, w2) => (Raise e, w2)
      | (inr estimate, w2) =>
          match selected_price estimate (info_msrp info) with
          | inl e => (Raise e, w2)
          | inr price =>
              match generate_sku E w2 with
              | (inl e, w3) => (Raise e, w3)
              | (inr sku, w3) =>
                  let d := listing sku info price upc_code in
                  (Ok tt,
                   after w3
                     [SellbritePost (base_url ++ "/products")
                        (request_headers api_key api_secret) d;
                      Print (if status_code (sellbrite_reply E d) =? 201
                             then success_message
                             else failure_message (text (sellbrite_reply E d)))])
              end
          end
      end
  end.
Proof.
  unfold create_sellbrite_product_listing, bind.
  destruct (generate_product_info E upc_code w) as [[e|info] w1]; [reflexivity|].
  destruct (get_ebay_sold_price E upc_code w1) as [[e|estimate] w2]; [reflexivity|].
  unfold lift at 1. fold (selected_price estimate (info_msrp info)).
  destruct (selected_price estimate (info_msrp info)) as [e|price]; [reflexivity|].
  destruct (generate_sku E w2) as [[e|sku] w3]; [reflexivity|].
  unfold emit, after, listing, request_headers, success_message, failure_message.
  cbn [sequential_file log]. cbv zeta.
  destruct (status_code _ =? 201); cbn [sequential_file log];
    rewrite <- app_assoc; reflexivity.
Qed.

Lemma posts_app l l' : posts (l ++ l') = (posts l ++ posts l')%list.
Proof. apply flat_map_app. Qed.

Lemma prints_app l l' : prints (l ++ l') = (prints l ++ prints l')%list.
Proof. apply flat_map_app. Qed.

Lemma post_headers_app l l' :
  post_headers (l ++ l') = (post_headers l ++ post_headers l')%list.
Proof. apply flat_map_app. Qed.

Lemma stages_app l l' : stages (l ++ l') = (stages l ++ stages l')%list.
Proof. apply flat_map_app. Qed.

Lemma generate_product_info_world E upc_code w r w1 :
  generate_product_info E upc_code w = (r, w1) ->
  w1 = after w [OpenAICompletion (prompt_for upc_code)].
Proof.
  intros H. rewrite <- (generate_product_info_effect E upc_code w), H. reflexivity.
Qed.

Lemma get_ebay_sold_price_world E upc_code w r w2 :
  get_ebay_sold_price E upc_code w = (r, w2) ->
  w2 = after w [EbayGet ("UPC:" ++ upc_code)].
Proof.
  intros H. rewrite <- (get_ebay_sold_price_effect E upc_code w), H. reflexivity.
Qed.

Lemma generate_sku_world E w r w3 :
  generate_sku E w = (r, w3) ->
  match r with
  | inl _ => w3 = w \/ w3 = after w [FileRead]
  | inr _ => exists content,
      w3 = {| sequential_file := Some content;
              log := (log w ++ [FileRead; FileWrite content])%list |}
  end.
Proof.
  rewrite generate_sku_unfold.
  destruct (sequential_file w) as [content|] eqn:Hfile.
  - destruct (PyInt.int (PyStr.strip content)) as [e|N]; intros [= <- <-].
    + right. unfold after. rewrite Hfile. reflexivity.
    + eexists. reflexivity.
  - intros [= <- <-]. left. reflexivity.
Qed.

(** Every call of the publisher adds one of the four traces to the log. *)
Lemma create_listing_trace E api_key api_secret upc_code w :
  exists l : list event,
    log (snd (create_sellbrite_product_listing E api_key api_secret upc_code w))
    = (log w ++ l)%list
    /\ listing_trace E api_key api_secret upc_code
         (fst (create_sellbrite_product_listing E api_key api_secret upc_code w)) l.
Proof.
  rewrite create_listing_unfold.
  destruct (generate_product_info E upc_code w) as [[e|info] w1] eqn:H1;
    apply generate_product_info_world in H1; subst w1.
  { eexists. split; [reflexivity | constructor]. }
  destruct (get_ebay_sold_price E upc_code _) as [[e|estimate] w2] eqn:H2;
    apply get_ebay_sold_price_world in H2; subst w2.
  { eexists. cbn [snd fst after log]. rewrite <- app_assoc.
    split; [reflexivity | apply stopped_estimating]. }
  destruct (selected_price estimate (info_msrp info)) as [e|price].
  { eexists. cbn [snd fst after log]. rewrite <- app_assoc.
    split; [reflexivity | apply stopped_estimating]. }
  destruct (generate_sku E _) as [[e|sku] w3] eqn:H3;
    apply generate_sku_world in H3.
  - destruct H3 as [-> | ->]; eexists; cbn [snd fst after log];
      rewrite <- ?app_assoc; (split; [reflexivity|]).
    + apply stopped_estimating.
    + apply stopped_minting.
  - destruct H3 as [content ->]. eexists. cbv zeta. cbn [snd fst after log].
    rewrite <- !app_assoc. split; [reflexivity|].
    apply (submitted E api_key api_secret upc_code content
             (listing sku info price upc_code)).
    reflexivity.
Qed.

(** C4.  After the metadata and the estimate are obtained, the price of the
    payload submitted is the estimate when there is one, and otherwise half
    of the MSRP line read as a float; when there is no estimate and the MSRP
    line is not a float literal, the publisher fails with [ValueError], no
    request is submitted and the counter file is not touched.  An MSRP line
    with a dollar sign in it is such a line. *)
Theorem create_listing_price
  (E : env) (api_key api_secret upc_code : string) (w w1 w2 : world)
  (info : product_info) (estimate : option float) :
  generate_product_info E upc_code w = (Ok info, w1) ->
  get_ebay_sold_price E upc_code w1 = (Ok estimate, w2) ->
  (forall (p : float) (sku : string) (w3 : world),
      estimate = Some p ->
      generate_sku E w2 = (Ok sku, w3) ->
      posts (log (snd (create_sellbrite_product_listing E api_key api_secret upc_code w)))
      = (posts (log w) ++ [listing sku info p upc_code])%list)
  /\ (forall (m : float) (sku : string) (w3 : world),
        estimate = None ->
        PyFloat.float_of_str (info_msrp info) = Ok m ->
        generate_sku E w2 = (Ok sku, w3) ->
        posts (log (snd (create_sellbrite_product_listing E api_key api_secret upc_code w)))
        = (posts (log w) ++ [listing sku info (m / 2)%float upc_code])%list)
  /\ (estimate = None ->
      (forall m : float, PyFloat.float_of_str (info_msrp info) <> Ok m) ->
      fst (create_sellbrite_product_listing E api_key api_secret upc_code w)
      = Raise ValueError
      /\ posts (log (snd (create_sellbrite_product_listing E api_key api_secret upc_code w)))
         = posts (log w)
      /\ sequential_file (snd (create_sellbrite_product_listing E api_key api_secret upc_code w))
         = sequential_file w)
  /\ (estimate = None ->
      PyStr.contains dollar (info_msrp info) = true ->
      fst (create_sellbrite_product_listing E api_key api_secret upc_code w)
      = Raise ValueError).
Proof.
  intros H1 H2.
  pose proof (generate_product_info_world _ _ _ _ _ H1) as Hw1.
  pose proof (get_ebay_sold_price_world _ _ _ _ _ H2) as Hw2.
  rewrite create_listing_unfold, H1, H2.
  assert (Hposts : forall sku w3 d,
             generate_sku E w2 = (Ok sku, w3) ->
             posts (log (after w3 [SellbritePost (base_url ++ "/products")
                                     (request_headers api_key api_secret) d;
                                   Print (if status_code (sellbrite_reply E d) =? 201
                                          then success_message
                                          else failure_message (text (sellbrite_reply E d)))]))
             = (posts (log w) ++ [d])%list).
  { intros sku w3 d H3. apply generate_sku_world in H3 as [content ->].
    subst w2 w1. cbn [after log]. rewrite !posts_app. cbn [posts flat_map app].
    rewrite !app_nil_r. reflexivity. }
  split; [|split; [|split]].
  - intros p sku w3 -> H3. cbn [selected_price]. rewrite H3. cbv zeta. cbn [snd].
    exact (Hposts _ _ _ H3).
  - intros m sku w3 -> Hm H3. cbn [selected_price]. rewrite Hm, H3. cbv zeta. cbn [snd].
    exact (Hposts _ _ _ H3).
  - intros -> Hbad. cbn [selected_price].
    destruct (PyFloat.float_of_str (info_msrp info)) as [e|m] eqn:Hm;
      [|exfalso; exact (Hbad m eq_refl)].
    rewrite (float_of_str_raises_value_error _ _ Hm).
    subst w2 w1. cbn [fst snd after log sequential_file].
    rewrite !posts_app. cbn [posts flat_map app]. rewrite !app_nil_r.
    repeat split.
  - intros -> Hdollar. cbn [selected_price].
    rewrite (float_of_str_rejects_dollar _ Hdollar). reflexivity.
Qed.

Lemma create_listing_price_witness :
  posts (log (snd (create_sellbrite_product_listing
                     (Sample.environment (Sample.completion "19.99")
                        (Some (Sample.document ["10.0"; "20.0"])) Sample.created)
                     "key" "secret" Sample.upc_code (fresh (Some "41")))))
  = [listing "260106-B-042" (Sample.info "19.99") 7.5%float Sample.upc_code]
  /\ posts (log (snd (create_sellbrite_product_listing
                        (Sample.environment (Sample.completion "19.99")
                           (Some (Sample.document [])) Sample.created)
                        "key" "secret" Sample.upc_code (fresh (Some "41")))))
     = [listing "260106-B-042" (Sample.info "19.99")
          (PyFloat.of_decimal false 1999 (-2) / 2)%float Sample.upc_code]
  /\ (fst (create_sellbrite_product_listing
             (Sample.environment (Sample.completion "$19.99")
                (Some (Sample.document [])) Sample.created)
             "key" "secret" Sample.upc_code (fresh (Some "41")))
      = Raise ValueError
      /\ posts (log (snd (create_sellbrite_product_listing
                            (Sample.environment (Sample.completion "$19.99")
                               (Some (Sample.document [])) Sample.created)
                            "key" "secret" Sample.upc_code (fresh (Some "41")))))
         = []
      /\ sequential_file
           (snd (create_sellbrite_product_listing
                   (Sample.environment (Sample.completion "$19.99")
                      (Some (Sample.document [])) Sample.created)
                   "key" "secret" Sample.upc_code (fresh (Some "41"))))
         = Some "41").
Proof.
  split; [|split].
  - refine (proj1 (create_listing_price
                     (Sample.environment (Sample.completion "19.99")
                        (Some (Sample.document ["10.0"; "20.0"])) Sample.created)
                     "key" "secret" Sample.upc_code (fresh (Some "41"))
                     (Sample.generated (Some "41")) (Sample.estimated (Some "41"))
                     (Sample.info "19.99") (Some 7.5%float) _ _)
                  7.5%float "260106-B-042"
                  {| sequential_file := Some "42";
                     log := (log (Sample.estimated (Some "41"))
                             ++ [FileRead; FileWrite "42"])%list |} eq_refl _);
      vm_compute; reflexivity.
  - refine (proj1 (proj2 (create_listing_price
                     (Sample.environment (Sample.completion "19.99")
                        (Some (Sample.document [])) Sample.created)
                     "key" "secret" Sample.upc_code (fresh (Some "41"))
                     (Sample.generated (Some "41")) (Sample.estimated (Some "41"))
                     (Sample.info "19.99") None _ _))
                  (PyFloat.of_decimal false 1999 (-2)) "260106-B-042"
                  {| sequential_file := Some "42";
                     log := (log (Sample.estimated (Some "41"))
                             ++ [FileRead; FileWrite "42"])%list |} eq_refl _ _);
      vm_compute; reflexivity.
  - refine (proj1 (proj2 (proj2 (create_listing_price
                     (Sample.environment (Sample.completion "$19.99")
                        (Some (Sample.document [])) Sample.created)
                     "key" "secret" Sample.upc_code (fresh (Some "41"))
                     (Sample.generated (Some "41")) (Sample.estimated (Some "41"))
                     (Sample.info "$19.99") None _ _)))
                  eq_refl _).
    + vm_compute; reflexivity.
    + vm_compute; reflexivity.
    + intros m Hm. vm_compute in Hm. discriminate Hm.
Defined.

Lemma failure_is_not_success body : failure_message body <> success_message.
Proof. unfold failure_message, success_message. cbn. discriminate. Qed.

(** C6.  A call of the publisher submits at most one request.  When the
    stages before the submission succeed it submits exactly one, returns
    normally whatever the status of the reply, and prints one message: the
    success message if and only if the status is 201, and otherwise the
    failure message with the body of the reply. *)
Theorem create_listing_report
  (E : env) (api_key api_secret upc_code : string) (w : world) :
  (exists l : list event,
      log (snd (create_sellbrite_product_listing E api_key api_secret upc_code w))
      = (log w ++ l)%list
      /\ (List.length (posts l) <= 1)%nat)
  /\ (forall (w1 w2 w3 : world) (info : product_info) (estimate : option float)
             (price : float) (sku : string),
        generate_product_info E upc_code w = (Ok info, w1) ->
        get_ebay_sold_price E upc_code w1 = (Ok estimate, w2) ->
        selected_price estimate (info_msrp info) = Ok price ->
        generate_sku E w2 = (Ok sku, w3) ->
        let reply := sellbrite_reply E (listing sku info price upc_code) in
        let final := snd (create_sellbrite_product_listing E api_key api_secret upc_code w) in
        fst (create_sellbrite_product_listing E api_key api_secret upc_code w) = Ok tt
        /\ posts (log final) = (posts (log w) ++ [listing sku info price upc_code])%list
        /\ (prints (log final) = (prints (log w) ++ [success_message])%list
            <-> status_code reply = 201)
        /\ (status_code reply <> 201 ->
            prints (log final) = (prints (log w) ++ [failure_message (text reply)])%list)).
Proof.
  split.
  - destruct (create_listing_trace E api_key api_secret upc_code w) as (l & Hlog & Htrace).
    exists l. split; [exact Hlog|].
    destruct Htrace; cbn; lia.
  - intros w1 w2 w3 info estimate price sku H1 H2 H3 H4 reply final.
    subst final. rewrite create_listing_unfold, H1, H2, H3, H4. cbv zeta.
    fold reply. cbn [fst snd].
    apply generate_product_info_world in H1.
    apply get_ebay_sold_price_world in H2.
    apply generate_sku_world in H4 as [content ->]. subst w2 w1.
    cbn [after log]. rewrite !posts_app, !prints_app.
    cbn [posts prints flat_map app]. rewrite !app_nil_r.
    split; [reflexivity|]. split; [reflexivity|].
    destruct (Z.eqb_spec (status_code reply) 201) as [Hs|Hs].
    + split; [split; auto | intros Hn; contradiction].
    + split; [split; [|intros Hn; contradiction] | reflexivity].
      intros Heq. apply app_inv_head in Heq.
      exfalso. apply (failure_is_not_success (text reply)). congruence.
Qed.

Lemma create_listing_report_witness :
  fst (create_sellbrite_product_listing
         (Sample.environment (Sample.completion "19.99")
            (Some (Sample.document ["10.0"; "20.0"])) Sample.rejected)
         "key" "secret" Sample.upc_code (fresh (Some "41")))
  = Ok tt
  /\ posts (log (snd (create_sellbrite_product_listing
                        (Sample.environment (Sample.completion "19.99")
                           (Some (Sample.document ["10.0"; "20.0"])) Sample.rejected)
                        "key" "secret" Sample.upc_code (fresh (Some "41")))))
     = [listing "260106-B-042" (Sample.info "19.99") 7.5%float Sample.upc_code]
  /\ prints (log (snd (create_sellbrite_product_listing
                         (Sample.environment (Sample.completion "19.99")
                            (Some (Sample.document ["10.0"; "20.0"])) Sample.rejected)
                         "key" "secret" Sample.upc_code (fresh (Some "41")))))
     = ["Failed to create product listing. Error: sku has already been taken"].
Proof.
  assert (H := proj2 (create_listing_report
                (Sample.environment (Sample.completion "19.99")
                   (Some (Sample.document ["10.0"; "20.0"])) Sample.rejected)
                "key" "secret" Sample.upc_code (fresh (Some "41")))
             (Sample.generated (Some "41")) (Sample.estimated (Some "41"))
             {| sequential_file := Some "42";
                log := (log (Sample.estimated (Some "41"))
                        ++ [FileRead; FileWrite "42"])%list |}
             (Sample.info "19.99") (Some 7.5%float) 7.5%float "260106-B-042"
             eq_refl eq_refl eq_refl eq_refl).
  cbv zeta in H. destruct H as (Hok & Hposts & _ & Hfail).
  split; [exact Hok|]. split; [exact Hposts|].
  apply Hfail. vm_compute. discriminate.
Defined.

(** ** The whole run *)

Lemma after_after w l l' : after (after w l) l' = after w (l ++ l').
Proof. unfold after. cbn [sequential_file log]. now rewrite app_assoc. Qed.

Lemma after_nil w : after w [] = w.
Proof. destruct w. unfold after. cbn. now rewrite app_nil_r. Qed.

(** The loop of [main] only reads the camera. *)
Lemma scan_world reads : forall w,
  exists k : nat, snd (scan reads w) = after w (repeat CameraRead k).
Proof.
  induction reads as [|r rest IH]; intros w.
  - exists 0%nat. cbn. now rewrite after_nil.
  - cbn [scan]. unfold bind at 1. unfold emit at 1.
    fold (after w [CameraRead]).
    assert (Hrest : exists k, snd (scan rest (after w [CameraRead]))
                              = after w (repeat CameraRead k)).
    { destruct (IH (after w [CameraRead])) as [k Hk].
      exists (S k). rewrite Hk, after_after. reflexivity. }
    destruct (read_ok r); [|exact Hrest].
    destruct (frame r) as [decoded_objects|]; [|exact Hrest].
    destruct (find _ decoded_objects) as [obj|]; [|exact Hrest].
    exists 1%nat. unfold bind, lift, ret.
    destruct (symbol_data obj); reflexivity.
Qed.

Lemma main_unfold E reads w :
  main E reads w =
  match scan reads w with
  | (inl e, ws) => (Raise e, ws)
  | (inr None, ws) => (Ok None, ws)
  | (inr (Some upc_code), ws) =>
      match create_sellbrite_product_listing E "your_api_key" "your_api_secret"
              upc_code (after ws [CameraRelease]) with
      | (inl e, wf) => (Raise e, wf)
      | (inr _, wf) => (Ok (Some tt), wf)
      end
  end.
Proof.
  unfold main. cbv zeta. unfold bind at 1.
  destruct (scan reads w) as [[e|[upc_code|]] ws]; reflexivity.
Qed.

Lemma stage_eqb_refl a : stage_eqb a a = true.
Proof. destruct a; reflexivity. Qed.

Lemma stages_reads k : stages (repeat CameraRead k) = repeat Acquiring k.
Proof. induction k as [|k IH]; cbn; [reflexivity | now f_equal]. Qed.

Lemma visits_of_stay a rest : forall k,
  visits_of (repeat a k ++ a :: rest) = visits_of (a :: rest).
Proof.
  induction k as [|k IH]; [reflexivity|].
  cbn [repeat app]. rewrite <- IH.
  destruct k; cbn [repeat app visits_of]; now rewrite stage_eqb_refl.
Qed.

Lemma visits_of_only a k :
  visits_of (repeat a k) = [] \/ visits_of (repeat a k) = [a].
Proof.
  destruct k as [|k]; [left; reflexivity|right].
  cbn [repeat]. rewrite (repeat_cons k a), visits_of_stay. reflexivity.
Qed.

Lemma stage_eqb_eq a b : stage_eqb a b = true -> a = b.
Proof. destruct a, b; (reflexivity || discriminate). Qed.

Lemma is_prefix_app l : forall order,
  is_prefix l order = true -> exists rest, order = (l ++ rest)%list.
Proof.
  induction l as [|a l IH]; intros order H; [exists order; reflexivity|].
  destruct order as [|b order]; [discriminate H|].
  cbn [is_prefix] in H. apply andb_true_iff in H as [Hab Hl].
  apply stage_eqb_eq in Hab as ->.
  destruct (IH _ Hl) as [rest ->]. exists rest. reflexivity.
Qed.

Lemma is_prefix_NoDup l order :
  is_prefix l order = true -> NoDup order -> NoDup l.
Proof.
  intros H Hnd. destruct (is_prefix_app _ _ H) as [rest ->].
  exact (NoDup_app_remove_r _ _ Hnd).
Qed.

Lemma call_order_NoDup : NoDup call_order.
Proof.
  unfold call_order. repeat constructor; cbn; intuition discriminate.
Qed.

(** C5, as the code has it.  In every run the stages are entered in the
    order Acquiring, Generating, Estimating, Minting, Publishing: the stages
    a run visits, each counted once for all the consecutive events that
    belong to it, are a prefix of that list (so none is visited twice and
    none is returned to), and a run that ends normally visits all five. *)
Theorem main_stage_order (E : env) (reads : list camera_read) (file : option string) :
  is_prefix (visits (log (snd (main E reads (fresh file))))) call_order = true
  /\ NoDup (visits (log (snd (main E reads (fresh file)))))
  /\ (fst (main E reads (fresh file)) = Ok (Some tt) ->
      visits (log (snd (main E reads (fresh file)))) = call_order).
Proof.
  enough (H : is_prefix (visits (log (snd (main E reads (fresh file))))) call_order = true
              /\ (fst (main E reads (fresh file)) = Ok (Some tt) ->
                  visits (log (snd (main E reads (fresh file)))) = call_order)).
  { destruct H as [Hprefix Hall]. split; [exact Hprefix|]. split; [|exact Hall].
    exact (is_prefix_NoDup _ _ Hprefix call_order_NoDup). }
  rewrite main_unfold.
  destruct (scan_world reads (fresh file)) as [k Hk].
  destruct (scan reads (fresh file)) as [[e|[upc_code|]] ws]; cbn [snd] in Hk; subst ws.
  - cbn [fst snd after log fresh app]. unfold visits. rewrite stages_reads.
    split; [|discriminate].
    destruct (visits_of_only Acquiring k) as [-> | ->]; reflexivity.
  - rewrite after_after.
    destruct (create_listing_trace E "your_api_key" "your_api_secret" upc_code
                (after (fresh file) (repeat CameraRead k ++ [CameraRelease])))
      as (l & Hlog & Htrace).
    destruct (create_sellbrite_product_listing _ _ _ _ _) as [[e|[]] wf];
      cbn [fst snd] in *; rewrite Hlog; cbn [after fresh log app];
      unfold visits; rewrite !stages_app, stages_reads, <- app_assoc;
      cbn [stages flat_map stage_of app];
      rewrite visits_of_stay;
      inversion Htrace; subst; (split; [reflexivity | try discriminate; reflexivity]).
  - cbn [fst snd after log fresh app]. unfold visits. rewrite stages_reads.
    split; [|discriminate].
    destruct (visits_of_only Acquiring k) as [-> | ->]; reflexivity.
Qed.

(** The loop ends once a read brings a frame with a UPC symbol: the run then
    returns or raises, and is no longer waiting. *)
Lemma scan_finds reads : forall w,
  Exists (fun r => read_ok r = true
                   /\ exists decoded_objects,
                       frame r = Some decoded_objects
                       /\ List.find (fun obj => String.eqb (symbol_type obj) "UPC")
                            decoded_objects <> None) reads ->
  fst (scan reads w) <> Ok None.
Proof.
  induction reads as [|r rest IH]; intros w Hex; [inversion Hex|].
  cbn [scan]. unfold bind at 1. unfold emit at 1.
  destruct (read_ok r) eqn:Hok.
  - destruct (frame r) as [decoded_objects|] eqn:Hframe.
    + destruct (find _ decoded_objects) as [obj|] eqn:Hfind.
      * unfold bind, lift, ret. destruct (symbol_data obj); discriminate.
      * apply IH. inversion Hex as [? ? (_ & objs & Hobjs & Hsome)|]; subst; [|assumption].
        exfalso. rewrite Hframe in Hobjs. injection Hobjs as <-. contradiction.
    + apply IH. inversion Hex as [? ? (_ & objs & Hobjs & _)|]; subst; [|assumption].
      rewrite Hframe in Hobjs. discriminate.
  - apply IH. inversion Hex as [? ? (Hread & _)|]; subst; [|assumption].
    rewrite Hok in Hread. discriminate.
Qed.

(** C5, as stated, fails: a run that goes through visits Generating and
    Estimating before Minting, so its visits are not in the order Acquiring,
    Minting, Estimating, Generating, Publishing. *)
Lemma main_mints_after_generating :
  ~ (forall (E : env) (reads : list camera_read) (file : option string),
        is_prefix (visits (log (snd (main E reads (fresh file))))) specified_order
        = true).
Proof.
  intros H.
  specialize (H (Sample.environment (Sample.completion "19.99")
                   (Some (Sample.document ["10.0"; "20.0"])) Sample.created)
                Sample.reads (Some "41")).
  vm_compute in H. discriminate H.
Qed.

(** ** The authorization header *)

Lemma string_app_inv_head (s a b : string) : s ++ a = s ++ b -> a = b.
Proof.
  induction s as [|c s IH]; cbn [String.append]; intros H; [exact H|].
  apply IH. congruence.
Qed.

Lemma contains_app c (a b : string) :
  PyStr.contains c (a ++ b) = PyStr.contains c a || PyStr.contains c b.
Proof.
  induction a as [|d a IH]; cbn [String.append PyStr.contains]; [reflexivity|].
  now rewrite IH, orb_assoc.
Qed.

Lemma sextet_not_colon i : Ascii.eqb ":" (Base64.sextet i) = false.
Proof.
  unfold Base64.sextet.
  assert (Hall : forallb (fun c => negb (Ascii.eqb ":" c)) Base64.alphabet = true)
    by reflexivity.
  rewrite forallb_forall in Hall.
  destruct (nth_in_or_default (N.to_nat i) Base64.alphabet "A"%char) as [Hin | ->].
  - apply negb_true_iff. exact (Hall _ Hin).
  - reflexivity.
Qed.

(** No colon comes out of the encoder. *)
Lemma encode_no_colon s : PyStr.contains ":" (Base64.encode s) = false.
Proof.
  assert (H : forall n s, (String.length s <= n)%nat ->
                          PyStr.contains ":" (Base64.encode s) = false).
  { clear s. induction n as [|n IH]; intros s Hlen.
    - destruct s; [reflexivity | cbn in Hlen; lia].
    - destruct s as [|a [|b [|c rest]]]; cbn [Base64.encode PyStr.contains];
        rewrite ?sextet_not_colon; cbn [orb]; try reflexivity.
      apply IH. cbn [String.length] in Hlen. lia. }
  exact (H _ _ (le_n _)).
Qed.

(** The header the script builds is never the Basic scheme's. *)
Lemma authorization_is_not_basic api_key api_secret :
  authorization api_key api_secret <> basic_authorization api_key api_secret.
Proof.
  unfold authorization, basic_authorization. intros H.
  apply string_app_inv_head in H.
  apply (f_equal (PyStr.contains ":")) in H.
  rewrite encode_no_colon, contains_app in H.
  cbn [String.append PyStr.contains] in H.
  rewrite Ascii.eqb_refl in H. cbn [orb] in H.
  rewrite orb_true_r in H. discriminate H.
Qed.

(** C9 fails on the code.  Every request a call of the publisher submits
    carries the header [Authorization] with the value [Basic], a blank, and
    the key, a colon and the secret as they are; this value is never the
    Base64 encoding that the Basic scheme asks for. *)
Theorem create_listing_authorization_unencoded
  (E : env) (api_key api_secret upc_code : string) (w : world) :
  exists l : list event,
    log (snd (create_sellbrite_product_listing E api_key api_secret upc_code w))
    = (log w ++ l)%list
    /\ Forall (fun headers =>
                 headers = [("Content-Type", "application/json");
                            ("Authorization", "Basic " ++ api_key ++ ":" ++ api_secret)])
              (post_headers l)
    /\ "Basic " ++ api_key ++ ":" ++ api_secret
       <> "Basic " ++ Base64.encode (api_key ++ ":" ++ api_secret).
Proof.
  destruct (create_listing_trace E api_key api_secret upc_code w) as (l & Hlog & Htrace).
  exists l. split; [exact Hlog|]. split.
  - destruct Htrace; cbn; repeat constructor.
  - exact (authorization_is_not_basic api_key api_secret).
Qed.

(** The run of [main] on the sample inputs: the header it sends, and the
    header the Basic scheme gives for the same key and secret. *)
Lemma main_authorization_header :
  post_headers (log (snd (main (Sample.environment (Sample.completion "19.99")
                                  (Some (Sample.document ["10.0"; "20.0"]))
                                  Sample.created)
                            Sample.reads (fresh (Some "41")))))
  = [[("Content-Type", "application/json");
      ("Authorization", "Basic your_api_key:your_api_secret")]]
  /\ basic_authorization "your_api_key" "your_api_secret"
     = "Basic eW91cl9hcGlfa2V5OnlvdXJfYXBpX3NlY3JldA==".
Proof. split; vm_compute; reflexivity. Qed.

Lemma main_stage_order_witness :
  visits (log (snd (main (Sample.environment (Sample.completion "19.99")
                            (Some (Sample.document ["10.0"; "20.0"])) Sample.created)
                      Sample.reads (fresh (Some "41")))))
  = [Acquiring; Generating; Estimating; Minting; Publishing].
Proof.
  exact (proj2 (proj2 (main_stage_order
                         (Sample.environment (Sample.completion "19.99")
                            (Some (Sample.document ["10.0"; "20.0"])) Sample.created)
                         Sample.reads (Some "41"))) eq_refl).
Defined.

(** * Further properties *)

(** ** The loop of [main] *)

Lemma scan_step r rest w :
  scan (r :: rest) w =
  match upc_symbol r with
  | Some obj => (scanned obj, after w [CameraRead])
  | None => scan rest (after w [CameraRead])
  end.
Proof.
  cbn [scan]. unfold bind at 1. unfold emit at 1. fold (after w [CameraRead]).
  unfold upc_symbol, scanned.
  destruct (read_ok r); [|reflexivity].
  destruct (frame r) as [decoded_objects|]; [|reflexivity].
  destruct (find _ decoded_objects) as [obj|]; [|reflexivity].
  unfold bind, lift, ret. destruct (symbol_data obj); reflexivity.
Qed.

Lemma scan_skips skipped : forall reads w,
  Forall (fun r => upc_symbol r = None) skipped ->
  scan (skipped ++ reads) w
  = scan reads (after w (repeat CameraRead (List.length skipped))).
Proof.
  induction skipped as [|r skipped IH]; intros reads w Hskip.
  - cbn. now rewrite after_nil.
  - inversion Hskip as [|? ? Hr Hrest]; subst.
    cbn [app]. rewrite scan_step, Hr, (IH _ _ Hrest), after_after. reflexivity.
Qed.

(** X2.  The loop of [main] reads the camera until a read brings a frame
    with a symbol of type UPC: the reads before it (failed reads, reads
    without a frame, frames without such a symbol) are passed over, the
    first UPC symbol of that frame is taken, and no later read is made. *)
Theorem scan_first_upc (skipped rest : list camera_read) (r : camera_read)
  (obj : symbol) (w : world) :
  Forall (fun r => upc_symbol r = None) skipped ->
  upc_symbol r = Some obj ->
  scan (skipped ++ r :: rest) w
  = (scanned obj, after w (repeat CameraRead (S (List.length skipped)))).
Proof.
  intros Hskip Hr.
  rewrite (scan_skips _ _ _ Hskip), scan_step, Hr, after_after.
  rewrite <- repeat_cons. reflexivity.
Qed.

(** X3.  As long as no read brings a UPC symbol, [main] is still in its
    loop: it has read the camera once per read, has not released it, has
    sent no request and has not touched the counter file. *)
Theorem main_waits (E : env) (reads : list camera_read) (w : world) :
  Forall (fun r => upc_symbol r = None) reads ->
  main E reads w = (Ok None, after w (repeat CameraRead (List.length reads))).
Proof.
  intros Hnone. rewrite main_unfold.
  rewrite <- (app_nil_r reads) at 1. rewrite (scan_skips _ _ _ Hnone).
  reflexivity.
Qed.

(** X4.  When the payload of the UPC symbol found is not UTF-8, [main]
    raises the decoding error from inside the loop: nothing is sent, and the
    camera is not released. *)
Theorem main_decode_error (E : env) (skipped rest : list camera_read)
  (r : camera_read) (obj : symbol) (e : exn) (w : world) :
  Forall (fun r => upc_symbol r = None) skipped ->
  upc_symbol r = Some obj ->
  symbol_data obj = Raise e ->
  main E (skipped ++ r :: rest) w
  = (Raise e, after w (repeat CameraRead (S (List.length skipped)))).
Proof.
  intros Hskip Hr He. rewrite main_unfold.
  rewrite (scan_skips _ _ _ Hskip), scan_step, Hr, after_after.
  rewrite <- repeat_cons. unfold scanned. rewrite He. reflexivity.
Qed.

(** X5.  Once a UPC is read, [main] releases the camera and calls the
    publisher on that UPC with the two placeholder credentials; the result
    and the final world of [main] are those of the publisher. *)
Theorem main_runs_publisher (E : env) (skipped rest : list camera_read)
  (r : camera_read) (obj : symbol) (upc_code : string) (w : world) :
  Forall (fun r => upc_symbol r = None) skipped ->
  upc_symbol r = Some obj ->
  symbol_data obj = Ok upc_code ->
  let released :=
    after w (repeat CameraRead (S (List.length skipped)) ++ [CameraRelease]) in
  let listing_run :=
    create_sellbrite_product_listing E "your_api_key" "your_api_secret"
      upc_code released in
  main E (skipped ++ r :: rest) w
  = (match fst listing_run with
     | inr _ => Ok (Some tt)
     | inl e => Raise e
     end, snd listing_run).
Proof.
  intros Hskip Hr Hdata released listing_run. subst listing_run released.
  rewrite main_unfold.
  rewrite (scan_skips _ _ _ Hskip), scan_step, Hr, after_after.
  rewrite <- repeat_cons. unfold scanned. rewrite Hdata.
  rewrite after_after. cbn [repeat].
  destruct (create_sellbrite_product_listing _ _ _ _ _) as [[e|[]] wf]; reflexivity.
Qed.

(** ** The counter and the submission *)

Lemma get_ebay_sold_price_result E upc_code w root ps :
  ebay_document E ("UPC:" ++ upc_code) = Some root ->
  Forall2 (fun item p => item_price item = Ok p) (ET.iter "item" root) ps ->
  get_ebay_sold_price E upc_code w
  = (Ok (match ps with
         | [] => None
         | _ :: _ => Some (half (arithmetic_mean ps))
         end),
     after w [EbayGet ("UPC:" ++ upc_code)]).
Proof.
  intros Hdoc Hps.
  rewrite get_ebay_sold_price_unfold. cbv zeta. rewrite Hdoc.
  rewrite (sum_prices_all_read _ _ Hps).
  destruct ps as [|p ps]; [reflexivity|].
  destruct (Z.ltb_spec 0 (0 + Z.of_nat (List.length (p :: ps)))) as [_|Hlen];
    [|cbn [List.length] in Hlen; lia].
  reflexivity.
Qed.



(** ** Unreadable and undefined prices *)

Lemma price_failure_some item e :
  price_failure item = Some e -> item_price item = Raise e.
Proof.
  unfold price_failure, item_price, PyFloat.float_of_text.
  destruct (ET.find _ _ item) as [node|]; [|intros [= <-]; reflexivity].
  destruct (ET.text_of node) as [s|]; [|intros [= <-]; reflexivity].
  destruct (PyFloat.float_of_str s) as [e'|x] eqn:Hs; [|discriminate].
  intros [= <-]. now rewrite (float_of_str_raises_value_error _ _ Hs).
Qed.

Lemma price_failure_none item :
  price_failure item = None -> exists p, item_price item = Ok p.
Proof.
  unfold price_failure, item_price, PyFloat.float_of_text.
  destruct (ET.find _ _ item) as [node|]; [|discriminate].
  destruct (ET.text_of node) as [s|]; [|discriminate].
  destruct (PyFloat.float_of_str s) as [e'|x]; [discriminate|].
  intros _. exists x. reflexivity.
Qed.

Lemma sum_prices_first_failure good : forall bad rest e total_price total_items,
  Forall (fun item => price_failure item = None) good ->
  price_failure bad = Some e ->
  sum_prices (good ++ bad :: rest) total_price total_items = Raise e.
Proof.
  induction good as [|item good IH]; intros bad rest e total_price total_items Hgood Hbad.
  - cbn [app sum_prices]. now rewrite (price_failure_some _ _ Hbad).
  - inversion Hgood as [|? ? Hitem Hrest]; subst.
    destruct (price_failure_none _ Hitem) as [p Hp].
    cbn [app sum_prices]. rewrite Hp. now apply IH.
Qed.

(** X8.  The estimator fails with the exception of the first listing whose
    price cannot be read: [AttributeError] when the price node is missing,
    [TypeError] when it has no text, [ValueError] when the text is not a
    float literal; the listings after it are not looked at. *)
Theorem get_ebay_sold_price_first_failure
  (E : env) (upc_code : string) (w : world) (root : ET.element)
  (good rest : list ET.element) (bad : ET.element) (e : exn) :
  ebay_document E ("UPC:" ++ upc_code) = Some root ->
  ET.iter "item" root = (good ++ bad :: rest)%list ->
  Forall (fun item => price_failure item = None) good ->
  price_failure bad = Some e ->
  get_ebay_sold_price E upc_code w
  = (Raise e, after w [EbayGet ("UPC:" ++ upc_code)]).
Proof.
  intros Hdoc Hitems Hgood Hbad.
  rewrite get_ebay_sold_price_unfold. cbv zeta. rewrite Hdoc, Hitems.
  now rewrite (sum_prices_first_failure _ _ _ _ _ _ Hgood Hbad).
Qed.

Lemma add_nan_l x : (nan + x)%float = nan.
Proof.
  apply Prim2SF_inj. rewrite add_spec. reflexivity.
Qed.

Lemma add_nan_r x : (x + nan)%float = nan.
Proof.
  apply Prim2SF_inj. rewrite add_spec.
  change (Prim2SF nan) with S754_nan.
  destruct (Prim2SF x); reflexivity.
Qed.

Lemma div_nan_l x : (nan / x)%float = nan.
Proof.
  apply Prim2SF_inj. rewrite div_spec. reflexivity.
Qed.

Lemma float_sum_nan ps : forall acc,
  acc = nan \/ In nan ps -> fold_left PrimFloat.add ps acc = nan.
Proof.
  induction ps as [|p ps IH]; intros acc [Hacc|Hin].
  - exact Hacc.
  - destruct Hin.
  - cbn [fold_left]. apply IH. left. subst acc. apply add_nan_l.
  - cbn [fold_left]. apply IH. destruct Hin as [->|Hin]; [left; apply add_nan_r | right; exact Hin].
Qed.

(** X9.  A price text that reads as a NaN is accepted, and one such listing
    makes the whole estimate NaN: the estimator returns NaN, neither [None]
    nor a failure. *)
Theorem get_ebay_sold_price_nan
  (E : env) (upc_code : string) (w : world) (root : ET.element) (ps : list float) :
  ebay_document E ("UPC:" ++ upc_code) = Some root ->
  Forall2 (fun item p => item_price item = Ok p) (ET.iter "item" root) ps ->
  In nan ps ->
  fst (get_ebay_sold_price E upc_code w) = Ok (Some nan).
Proof.
  intros Hdoc Hps Hnan.
  rewrite (get_ebay_sold_price_result _ _ _ _ _ Hdoc Hps). cbn [fst].
  destruct ps as [|p ps]; [destruct Hnan|].
  unfold half, arithmetic_mean, float_sum.
  rewrite (float_sum_nan (p :: ps) 0%float (or_intror Hnan)).
  now rewrite !div_nan_l.
Qed.

(** ** Lines of a completion *)

Lemma split_length c s :
  List.length (PyStr.split c s) = S (count_char c s).
Proof.
  induction s as [|d s IH]; [reflexivity|].
  cbn [PyStr.split count_char].
  destruct (Ascii.eqb d c).
  - cbn [List.length]. now rewrite IH.
  - destruct (PyStr.split c s) as [|h t]; [discriminate IH | exact IH].
Qed.

(** X10.  The metadata generator succeeds exactly when the trimmed
    completion has at least six line feeds, and fails with [IndexError]
    otherwise. *)
Theorem generate_product_info_enough_lines (E : env) (upc_code : string) (w : world) :
  ((6 <= count_char newline (PyStr.strip (openai_completion E (prompt_for upc_code))))%nat ->
   exists info, fst (generate_product_info E upc_code w) = Ok info)
  /\ ((count_char newline (PyStr.strip (openai_completion E (prompt_for upc_code))) < 6)%nat ->
      fst (generate_product_info E upc_code w) = Raise IndexError).
Proof.
  rewrite generate_product_info_unfold. cbv zeta.
  pose proof (split_length newline
                (PyStr.strip (openai_completion E (prompt_for upc_code)))) as Hlen.
  fold (completion_lines E upc_code) in Hlen.
  destruct (completion_lines E upc_code)
    as [|t [|d [|b [|m [|mn [|ms [|c rest]]]]]]];
    cbn [List.length] in Hlen; split; intros Hcount;
    try lia; try reflexivity; eexists; reflexivity.
Qed.

Lemma split_no_separator c x :
  PyStr.all_chars (fun d => negb (Ascii.eqb d c)) x = true ->
  PyStr.split c x = [x].
Proof.
  induction x as [|d x IH]; [reflexivity|].
  cbn [PyStr.all_chars PyStr.split]. rewrite andb_true_iff, negb_true_iff.
  intros [-> Hx]. now rewrite (IH Hx).
Qed.

Lemma split_at_separator c x y :
  PyStr.all_chars (fun d => negb (Ascii.eqb d c)) x = true ->
  PyStr.split c (x ++ String c y) = x :: PyStr.split c y.
Proof.
  induction x as [|d x IH].
  - intros _. cbn [String.append PyStr.split]. now rewrite Ascii.eqb_refl.
  - cbn [PyStr.all_chars String.append PyStr.split].
    rewrite andb_true_iff, negb_true_iff. intros [-> Hx]. now rewrite (IH Hx).
Qed.

Lemma lstrip_by_length sp s :
  (String.length (PyStr.lstrip_by sp s) <= String.length s)%nat.
Proof.
  induction s as [|c s IH]; [apply le_n|].
  cbn [PyStr.lstrip_by]. destruct (sp c); cbn [String.length]; lia.
Qed.

Lemma lstrip_by_fixed_app sp t rest :
  t <> EmptyString -> PyStr.lstrip_by sp t = t ->
  PyStr.lstrip_by sp (t ++ rest) = t ++ rest.
Proof.
  destruct t as [|a t]; [congruence|]. intros _.
  cbn [PyStr.lstrip_by String.append]. destruct (sp a); [|reflexivity].
  intros H. pose proof (lstrip_by_length sp t) as Hlen.
  rewrite H in Hlen. cbn [String.length] in Hlen. lia.
Qed.

Lemma rstrip_by_fixed_app sp x y :
  y <> EmptyString /\ PyStr.rstrip_by sp y = y ->
  x ++ y <> EmptyString /\ PyStr.rstrip_by sp (x ++ y) = x ++ y.
Proof.
  intros [Hy Hfix]. induction x as [|a x [Hne IH]]; [split; assumption|].
  split; [discriminate|].
  cbn [String.append PyStr.rstrip_by]. cbv zeta. rewrite IH.
  destruct (x ++ y); [congruence | reflexivity].
Qed.

Lemma rstrip_by_fixed_cons sp a y :
  y <> EmptyString /\ PyStr.rstrip_by sp y = y ->
  String a y <> EmptyString /\ PyStr.rstrip_by sp (String a y) = String a y.
Proof. exact (rstrip_by_fixed_app sp (String a EmptyString) y). Qed.

(** X11.  Seven fields joined by line feeds are read back as they are,
    provided no field has a line feed in it, the title is not empty and does
    not start with white space, and the category is not empty and does not
    end with white space. *)
Theorem generate_product_info_round_trip
  (E : env) (upc_code : string) (w : world) (t d b m mn ms c : string) :
  openai_completion E (prompt_for upc_code)
  = String.concat (String newline EmptyString) [t; d; b; m; mn; ms; c] ->
  Forall (fun field => PyStr.all_chars not_newline field = true) [t; d; b; m; mn; ms; c] ->
  t <> EmptyString -> PyStr.lstrip_by PyStr.isspace t = t ->
  c <> EmptyString -> PyStr.rstrip_by PyStr.isspace c = c ->
  fst (generate_product_info E upc_code w)
  = Ok {| info_title := t; info_description := d; info_brand := b;
          info_manufacturer := m; info_model_number := mn;
          info_msrp := ms; info_category := c |}.
Proof.
  intros Htext Hfields Ht Htfix Hc Hcfix.
  rewrite generate_product_info_unfold. cbv zeta.
  unfold completion_lines. rewrite Htext. cbn [String.concat String.append].
  unfold PyStr.strip. rewrite (lstrip_by_fixed_app _ _ _ Ht Htfix).
  assert (Hfixed := conj Hc Hcfix).
  apply (rstrip_by_fixed_cons _ newline) in Hfixed.
  apply (rstrip_by_fixed_app _ ms) in Hfixed.
  apply (rstrip_by_fixed_cons _ newline) in Hfixed.
  apply (rstrip_by_fixed_app _ mn) in Hfixed.
  apply (rstrip_by_fixed_cons _ newline) in Hfixed.
  apply (rstrip_by_fixed_app _ m) in Hfixed.
  apply (rstrip_by_fixed_cons _ newline) in Hfixed.
  apply (rstrip_by_fixed_app _ b) in Hfixed.
  apply (rstrip_by_fixed_cons _ newline) in Hfixed.
  apply (rstrip_by_fixed_app _ d) in Hfixed.
  apply (rstrip_by_fixed_cons _ newline) in Hfixed.
  apply (rstrip_by_fixed_app _ t) in Hfixed.
  rewrite (proj2 Hfixed).
  repeat match goal with
         | H : Forall _ (_ :: _) |- _ => inversion H; clear H; subst
         end.
  unfold not_newline in *.
  rewrite !split_at_separator by assumption.
  rewrite split_no_separator by assumption.
  reflexivity.
Qed.

(** ** The counter in the SKU and in the file *)








Lemma lstrip_by_prefix sp pre s :
  PyStr.all_chars sp pre = true ->
  PyStr.lstrip_by sp (pre ++ s) = PyStr.lstrip_by sp s.
Proof.
  induction pre as [|c pre IH]; [reflexivity|].
  cbn [PyStr.all_chars String.append PyStr.lstrip_by].
  rewrite andb_true_iff. intros [-> Hpre]. exact (IH Hpre).
Qed.

Lemma rstrip_by_all sp post :
  PyStr.all_chars sp post = true -> PyStr.rstrip_by sp post = EmptyString.
Proof.
  induction post as [|c post IH]; [reflexivity|].
  cbn [PyStr.all_chars PyStr.rstrip_by]. rewrite andb_true_iff.
  intros [-> Hpost]. now rewrite (IH Hpost).
Qed.

Lemma rstrip_by_suffix sp x post :
  PyStr.all_chars sp post = true ->
  PyStr.rstrip_by sp (x ++ post) = PyStr.rstrip_by sp x.
Proof.
  intros Hpost. induction x as [|c x IH].
  - cbn [String.append]. now rewrite rstrip_by_all.
  - cbn [String.append PyStr.rstrip_by]. now rewrite IH.
Qed.



(** ** The width of a SKU *)

Lemma string_length_app (a b : string) :
  String.length (a ++ b) = (String.length a + String.length b)%nat.
Proof. induction a as [|c a IH]; cbn; [reflexivity | now rewrite IH]. Qed.

Lemma checked_below (P : Z -> bool) (bound : nat) :
  forallb (fun k => P (Z.of_nat k)) (seq 0 bound) = true ->
  forall v, 0 <= v < Z.of_nat bound -> P v = true.
Proof.
  intros Hall v Hv. rewrite forallb_forall in Hall.
  specialize (Hall (Z.to_nat v)). rewrite Z2Nat.id in Hall by lia.
  apply Hall. apply in_seq. lia.
Qed.

Lemma two_digits_length v :
  0 <= v < 100 -> String.length (PyDate.two_digits v) = 2%nat.
Proof.
  intros Hv. apply Nat.eqb_eq.
  apply (checked_below (fun v => Nat.eqb (String.length (PyDate.two_digits v)) 2) 100);
    [vm_compute; reflexivity | exact Hv].
Qed.

Lemma format_03_length v :
  0 <= v < 1000 -> String.length (PyInt.format_03 v) = 3%nat.
Proof.
  intros Hv. apply Nat.eqb_eq.
  apply (checked_below (fun v => Nat.eqb (String.length (PyInt.format_03 v)) 3) 1000);
    [vm_compute; reflexivity | exact Hv].
Qed.

(** X16.  On a date of the calendar and for a counter from 0 to 999 the SKU
    has exactly twelve characters. *)
Theorem generate_sku_width (E : env) (w : world) (content : string) (N : Z) :
  sequential_file w = Some content ->
  PyInt.int (PyStr.strip content) = Ok N ->
  1 <= month (now E) <= 12 ->
  1 <= day (now E) <= 31 ->
  0 <= N + 1 <= 999 ->
  exists sku, fst (generate_sku E w) = Ok sku /\ String.length sku = 12%nat.
Proof.
  intros Hfile Hint Hmonth Hday Hcounter.
  rewrite generate_sku_unfold, Hfile, Hint. cbn [fst].
  eexists. split; [reflexivity|].
  unfold PyDate.strftime_ymd. rewrite !string_length_app.
  rewrite !two_digits_length, format_03_length; try lia.
  - reflexivity.
  - apply Z.mod_pos_bound. lia.
Qed.

(** ** White space around a completion *)

Lemma lstrip_by_all sp s :
  PyStr.all_chars sp s = true -> PyStr.lstrip_by sp s = EmptyString.
Proof.
  induction s as [|c s IH]; [reflexivity|].
  cbn [PyStr.all_chars PyStr.lstrip_by]. rewrite andb_true_iff.
  intros [-> Hs]. exact (IH Hs).
Qed.

Lemma strip_suffix sp s post :
  PyStr.all_chars sp post = true ->
  PyStr.rstrip_by sp (PyStr.lstrip_by sp (s ++ post))
  = PyStr.rstrip_by sp (PyStr.lstrip_by sp s).
Proof.
  intros Hpost. induction s as [|c s IH].
  - cbn [String.append PyStr.lstrip_by]. now rewrite (lstrip_by_all _ _ Hpost).
  - cbn [String.append PyStr.lstrip_by]. destruct (sp c); [exact IH|].
    exact (rstrip_by_suffix sp (String c s) post Hpost).
Qed.

Lemma strip_surrounded before s after_ :
  PyStr.all_chars PyStr.isspace before = true ->
  PyStr.all_chars PyStr.isspace after_ = true ->
  PyStr.strip (before ++ s ++ after_) = PyStr.strip s.
Proof.
  intros Hbefore Hafter. unfold PyStr.strip.
  rewrite (lstrip_by_prefix _ _ _ Hbefore). exact (strip_suffix _ _ _ Hafter).
Qed.

(** X12.  White space around the completion does not change what the
    metadata generator returns. *)
Theorem generate_product_info_ignores_white_space
  (E E' : env) (upc_code : string) (w : world) (before after_ : string) :
  PyStr.all_chars PyStr.isspace before = true ->
  PyStr.all_chars PyStr.isspace after_ = true ->
  openai_completion E' (prompt_for upc_code)
  = before ++ openai_completion E (prompt_for upc_code) ++ after_ ->
  generate_product_info E' upc_code w = generate_product_info E upc_code w.
Proof.
  intros Hbefore Hafter Htext.
  rewrite !generate_product_info_unfold. unfold completion_lines.
  rewrite Htext, (strip_surrounded _ _ _ Hbefore Hafter). reflexivity.
Qed.

(** ** A stage that fails ends the call *)

(** X7.  A stage that fails ends the call of the publisher before the later
    stages act: with six lines or fewer the call raises [IndexError] after
    the completion request alone, and when the estimator fails the call
    raises its exception after the two requests, the counter file unread. *)
Theorem create_listing_aborts_early
  (E : env) (api_key api_secret upc_code : string) (w : world) :
  ((List.length (completion_lines E upc_code) <= 6)%nat ->
   create_sellbrite_product_listing E api_key api_secret upc_code w
   = (Raise IndexError, after w [OpenAICompletion (prompt_for upc_code)]))
  /\ ((7 <= List.length (completion_lines E upc_code))%nat ->
      forall e : exn,
        fst (get_ebay_sold_price E upc_code w) = Raise e ->
        create_sellbrite_product_listing E api_key api_secret upc_code w
        = (Raise e, after w [OpenAICompletion (prompt_for upc_code);
                             EbayGet ("UPC:" ++ upc_code)])).
Proof.
  rewrite create_listing_unfold, generate_product_info_unfold. cbv zeta.
  split.
  - intros Hlen.
    destruct (completion_lines E upc_code)
      as [|t [|d [|b [|m [|mn [|ms [|c rest]]]]]]]; try reflexivity.
    cbn [List.length] in Hlen. lia.
  - intros Hlen e He.
    destruct (completion_lines E upc_code)
      as [|t [|d [|b [|m [|mn [|ms [|c rest]]]]]]];
      cbn [List.length] in Hlen; try lia.
    rewrite get_ebay_sold_price_unfold in *. cbv zeta in *.
    destruct (ebay_document E _) as [root|].
    + destruct (sum_prices _ _ _) as [e'|[total_price total_items]].
      * cbn [fst] in He. injection He as ->.
        unfold after. cbn [sequential_file log]. now rewrite <- app_assoc.
      * destruct (0 <? total_items); discriminate He.
    + cbn [fst] in He. injection He as <-.
      unfold after. cbn [sequential_file log]. now rewrite <- app_assoc.
Qed.

(** ** Evaluations of the further properties *)


Lemma scan_first_upc_witness :
  scan Sample.reads (fresh None)
  = (Ok (Some "012345678905"),
     {| sequential_file := None; log := [CameraRead; CameraRead] |}).
Proof.
  refine (scan_first_upc
            [{| read_ok := false; frame := None |}] []
            {| read_ok := true;
               frame := Some [{| symbol_type := "EAN13"; symbol_data := Ok "4006381333931" |};
                              {| symbol_type := "UPC"; symbol_data := Ok Sample.upc_code |}] |}
            {| symbol_type := "UPC"; symbol_data := Ok Sample.upc_code |}
            (fresh None) _ eq_refl);
    repeat constructor.
Defined.

Lemma main_waits_witness :
  main (Sample.environment "" None Sample.created) Further.blind_reads (fresh (Some "41"))
  = (Ok None,
     {| sequential_file := Some "41"; log := [CameraRead; CameraRead; CameraRead] |}).
Proof.
  refine (main_waits (Sample.environment "" None Sample.created)
            Further.blind_reads (fresh (Some "41")) _);
    repeat constructor.
Defined.

Lemma main_decode_error_witness :
  main (Sample.environment "" None Sample.created) Further.garbled_reads (fresh (Some "41"))
  = (Raise UnicodeDecodeError,
     {| sequential_file := Some "41"; log := [CameraRead; CameraRead] |}).
Proof.
  refine (main_decode_error (Sample.environment "" None Sample.created)
            [{| read_ok := true; frame := Some [] |}] []
            {| read_ok := true; frame := Some [Further.garbled_symbol] |}
            Further.garbled_symbol UnicodeDecodeError (fresh (Some "41"))
            _ eq_refl eq_refl);
    repeat constructor.
Defined.

Lemma main_runs_publisher_witness :
  main (Sample.environment (Sample.completion "19.99")
          (Some (Sample.document ["10.0"; "20.0"])) Sample.rejected)
       Sample.reads (fresh (Some "41"))
  = (match fst (create_sellbrite_product_listing
                  (Sample.environment (Sample.completion "19.99")
                     (Some (Sample.document ["10.0"; "20.0"])) Sample.rejected)
                  "your_api_key" "your_api_secret" Sample.upc_code
                  (after (fresh (Some "41")) [CameraRead; CameraRead; CameraRelease])) with
     | inr _ => Ok (Some tt)
     | inl e => Raise e
     end,
     snd (create_sellbrite_product_listing
            (Sample.environment (Sample.completion "19.99")
               (Some (Sample.document ["10.0"; "20.0"])) Sample.rejected)
            "your_api_key" "your_api_secret" Sample.upc_code
            (after (fresh (Some "41")) [CameraRead; CameraRead; CameraRelease]))).
Proof.
  refine (main_runs_publisher
            (Sample.environment (Sample.completion "19.99")
               (Some (Sample.document ["10.0"; "20.0"])) Sample.rejected)
            [{| read_ok := false; frame := None |}] []
            {| read_ok := true;
               frame := Some [{| symbol_type := "EAN13"; symbol_data := Ok "4006381333931" |};
                              {| symbol_type := "UPC"; symbol_data := Ok Sample.upc_code |}] |}
            {| symbol_type := "UPC"; symbol_data := Ok Sample.upc_code |}
            Sample.upc_code (fresh (Some "41")) _ eq_refl eq_refl);
    repeat constructor.
Defined.


Lemma create_listing_aborts_early_witness :
  create_sellbrite_product_listing
    (Sample.environment (Sample.lines (firstn 6 Sample.seven)) None Sample.created)
    "key" "secret" Sample.upc_code (fresh None)
  = (Raise IndexError,
     {| sequential_file := None;
        log := [OpenAICompletion (prompt_for Sample.upc_code)] |})
  /\ create_sellbrite_product_listing
       (Sample.environment (Sample.completion "19.99") None Sample.created)
       "key" "secret" Sample.upc_code (fresh None)
     = (Raise XMLParseError,
        {| sequential_file := None;
           log := [OpenAICompletion (prompt_for Sample.upc_code);
                   EbayGet "UPC:012345678905"] |}).
Proof.
  split.
  - refine (proj1 (create_listing_aborts_early
                     (Sample.environment (Sample.lines (firstn 6 Sample.seven)) None
                        Sample.created)
                     "key" "secret" Sample.upc_code (fresh None)) _).
    vm_compute. apply le_n.
  - refine (proj2 (create_listing_aborts_early
                     (Sample.environment (Sample.completion "19.99") None Sample.created)
                     "key" "secret" Sample.upc_code (fresh None)) _ XMLParseError eq_refl).
    vm_compute. apply le_n.
Defined.

Lemma get_ebay_sold_price_first_failure_witness :
  get_ebay_sold_price
    (Sample.environment ""
       (Some (Sample.document_of
                [Sample.listing "10.0"; Sample.listing_without_price;
                 Sample.listing "twenty"]))
       Sample.created)
    Sample.upc_code (fresh None)
  = (Raise AttributeError,
     {| sequential_file := None; log := [EbayGet "UPC:012345678905"] |}).
Proof.
  refine (get_ebay_sold_price_first_failure
            (Sample.environment ""
               (Some (Sample.document_of
                        [Sample.listing "10.0"; Sample.listing_without_price;
                         Sample.listing "twenty"]))
               Sample.created)
            Sample.upc_code (fresh None)
            (Sample.document_of
               [Sample.listing "10.0"; Sample.listing_without_price;
                Sample.listing "twenty"])
            [Sample.listing "10.0"] [Sample.listing "twenty"]
            Sample.listing_without_price AttributeError eq_refl eq_refl _ eq_refl).
  repeat constructor.
Defined.

Lemma get_ebay_sold_price_nan_witness :
  fst (get_ebay_sold_price
         (Sample.environment "" (Some (Sample.document ["10.0"; "NaN"; "30.0"]))
            Sample.created)
         Sample.upc_code (fresh None))
  = Ok (Some nan).
Proof.
  refine (get_ebay_sold_price_nan
            (Sample.environment "" (Some (Sample.document ["10.0"; "NaN"; "30.0"]))
               Sample.created)
            Sample.upc_code (fresh None)
            (Sample.document ["10.0"; "NaN"; "30.0"])
            [10%float; nan; 30%float] eq_refl _ _).
  - repeat constructor.
  - right; left; reflexivity.
Defined.

Lemma generate_product_info_enough_lines_witness :
  (exists info,
      fst (generate_product_info
             (Sample.environment (Sample.completion "19.99") None Sample.created)
             Sample.upc_code (fresh None))
      = Ok info)
  /\ fst (generate_product_info
            (Sample.environment (Sample.lines (firstn 6 Sample.seven)) None Sample.created)
            Sample.upc_code (fresh None))
     = Raise IndexError.
Proof.
  split.
  - refine (proj1 (generate_product_info_enough_lines
                     (Sample.environment (Sample.completion "19.99") None Sample.created)
                     Sample.upc_code (fresh None)) _).
    vm_compute. apply le_n.
  - refine (proj2 (generate_product_info_enough_lines
                     (Sample.environment (Sample.lines (firstn 6 Sample.seven)) None
                        Sample.created)
                     Sample.upc_code (fresh None)) _).
    vm_compute. apply le_n.
Defined.

Lemma generate_product_info_round_trip_witness :
  fst (generate_product_info
         (Sample.environment (Sample.completion "19.99") None Sample.created)
         Sample.upc_code (fresh None))
  = Ok (Sample.info "19.99").
Proof.
  refine (generate_product_info_round_trip
            (Sample.environment (Sample.completion "19.99") None Sample.created)
            Sample.upc_code (fresh None)
            "Title" "Description" "Brand" "Manufacturer" "Model" "19.99" "Category"
            eq_refl _ _ eq_refl _ eq_refl);
    try discriminate.
  repeat constructor.
Defined.

Lemma generate_product_info_ignores_white_space_witness :
  generate_product_info
    (Sample.environment (Sample.lf ++ Sample.lf ++ Sample.completion "19.99" ++ " " ++ Sample.lf)
       None Sample.created)
    Sample.upc_code (fresh None)
  = generate_product_info
      (Sample.environment (Sample.completion "19.99") None Sample.created)
      Sample.upc_code (fresh None).
Proof.
  refine (generate_product_info_ignores_white_space
            (Sample.environment (Sample.completion "19.99") None Sample.created)
            (Sample.environment
               (Sample.lf ++ Sample.lf ++ Sample.completion "19.99" ++ " " ++ Sample.lf)
               None Sample.created)
            Sample.upc_code (fresh None)
            (Sample.lf ++ Sample.lf) (" " ++ Sample.lf) eq_refl eq_refl _).
  vm_compute. reflexivity.
Defined.




Lemma generate_sku_width_witness :
  exists sku,
    fst (generate_sku (Sample.environment "" None Sample.created) (fresh (Some "998")))
    = Ok sku
    /\ String.length sku = 12%nat.
Proof.
  refine (generate_sku_width (Sample.environment "" None Sample.created)
            (fresh (Some "998")) "998" 998 eq_refl eq_refl _ _ _);
    cbn; lia.
Defined.
